(** * TinyDB with transactions, backup/restore and a caching middleware

    A shallow embedding of [tinydb/database_updated.py.py] and
    [tinydb/middlewares_updated.py].

    The Python program manipulates mutable dictionaries that are shared by
    reference ([MemoryStorage.read] hands out the very object it stores), so
    the embedding keeps an explicit object store: a Python value is either a
    scalar or a reference into the store, and [dict.copy()] allocates a new
    object whose entries still point to the old nested objects.  Files are
    a finite map from paths to their text.  Every method is a computation in
    a state-and-exception monad over that world.

    Conventions: an exception ends the run (the code never catches one, so
    no statement is about the world after an exception); the open handle of
    the file backend is identified with the file at its path; the file
    system never runs out of space or permissions, so a call on it fails
    only for a missing source file or a file copied onto itself. *)

From Stdlib Require Import ZArith DecimalString Ascii.
From stdpp Require Import base option list strings gmap.

Set Warnings "-register-all".
Local Open Scope string_scope.

(** ** Python values, objects and exceptions *)

Definition loc := nat.

(** What a Python variable can hold: a scalar, or a reference to a
    container.  (Floats are outside the model.) *)
Inductive pyval : Type :=
| PNone
| PBool (b : bool)
| PInt (z : Z)
| PStr (s : string)
| PRef (l : loc).

(** The containers: [dict] with string keys, kept in insertion order,
    [list], and [tuple], which no operation changes once it is made. *)
Inductive pyobj : Type :=
| ODict (items : list (string * pyval))
| OList (items : list pyval)
| OTuple (items : list pyval).

(** The value a Python expression denotes once all references are followed:
    what [==] compares and what [json.dump] writes. *)
Inductive value : Type :=
| VNone
| VBool (b : bool)
| VInt (z : Z)
| VStr (s : string)
| VDict (items : list (string * value))
| VList (items : list value)
| VTuple (items : list value).

(** The exceptions the modelled code can raise.  [MemoryFault] has no Python
    counterpart: it marks a reference outside the store, which no Python
    program can produce. *)
Inductive exn : Type :=
| AttributeError
| TypeError
| KeyError
| ValueError
| JSONDecodeError
| FileNotFoundError
| SameFileError
| MemoryFault.

Inductive res (A : Type) : Type :=
| Ok (a : A)
| Raise (e : exn).
Arguments Ok {A} a.
Arguments Raise {A} e.

(** ** The world: object store and file system *)

Record world : Type := World {
  heap : list pyobj;
  files : gmap string string
}.

Definition set_heap (h : list pyobj) (w : world) : world :=
  {| heap := h; files := files w |}.
Definition set_files (f : gmap string string) (w : world) : world :=
  {| heap := heap w; files := f |}.

(** Computations that read and update the world and may raise. *)
Definition M (A : Type) : Type := world -> res (A * world).

Definition ret {A} (a : A) : M A := fun w => Ok (a, w).
Definition raise {A} (e : exn) : M A := fun _ => Raise e.
Definition bind {A B} (m : M A) (k : A -> M B) : M B :=
  fun w => match m w with
           | Ok (a, w') => k a w'
           | Raise e => Raise e
           end.

Notation "'let*' x ':=' m 'in' k" := (bind m (fun x => k))
  (at level 10, x name, m at level 100, k at level 200).

(** ** Primitive operations on the object store *)

(** Creating a container: the new object goes to the end of the store. *)
Definition alloc (o : pyobj) : M pyval :=
  fun w => Ok (PRef (length (heap w)), set_heap (heap w ++ [o]) w).

Definition load (l : loc) : M pyobj :=
  fun w => match heap w !! l with
           | Some o => Ok (o, w)
           | None => Raise MemoryFault
           end.

Definition store (l : loc) (o : pyobj) : M unit :=
  fun w => match heap w !! l with
           | Some _ => Ok (tt, set_heap (<[l := o]> (heap w)) w)
           | None => Raise MemoryFault
           end.

(** Python truthiness, as used by [x or y]. *)
Definition truthy (v : pyval) : M bool :=
  match v with
  | PNone => ret false
  | PBool b => ret b
  | PInt z => ret (negb (Z.eqb z 0))
  | PStr s => ret (negb (String.eqb s EmptyString))
  | PRef l =>
      let* o := load l in
      ret match o with
          | ODict [] | OList [] | OTuple [] => false
          | _ => true
          end
  end.

(** [v.copy()]: a new container with the same entries (a shallow copy);
    scalars and tuples have no such method. *)
Definition py_copy (v : pyval) : M pyval :=
  match v with
  | PRef l =>
      let* o := load l in
      match o with
      | OTuple _ => raise AttributeError
      | _ => alloc o
      end
  | _ => raise AttributeError
  end.

(** Dictionary entries. *)
Fixpoint dict_get {A} (k : string) (items : list (string * A)) : option A :=
  match items with
  | [] => None
  | (k', x) :: r => if String.eqb k k' then Some x else dict_get k r
  end.

Fixpoint dict_set {A} (k : string) (x : A) (items : list (string * A))
  : list (string * A) :=
  match items with
  | [] => [(k, x)]
  | (k', y) :: r =>
      if String.eqb k k' then (k, x) :: r else (k', y) :: dict_set k x r
  end.

Definition dict_mem {A} (k : string) (items : list (string * A)) : bool :=
  match dict_get k items with Some _ => true | None => false end.

(** [d[k]] and [d[k] = x] on a reference to a dictionary. *)
Definition py_getitem (d : pyval) (k : string) : M pyval :=
  match d with
  | PRef l =>
      let* o := load l in
      match o with
      | ODict items =>
          match dict_get k items with
          | Some x => ret x
          | None => raise KeyError
          end
      | OList _ | OTuple _ => raise TypeError
      end
  | _ => raise TypeError
  end.

Definition py_setitem (d : pyval) (k : string) (x : pyval) : M unit :=
  match d with
  | PRef l =>
      let* o := load l in
      match o with
      | ODict items => store l (ODict (dict_set k x items))
      | OList _ | OTuple _ => raise TypeError
      end
  | _ => raise TypeError
  end.

(** [k in d] for a dictionary [d], and the keys a [for] loop over [d]
    visits.  The program only applies them to dictionaries. *)
Definition py_contains (d : pyval) (k : string) : M bool :=
  match d with
  | PRef l =>
      let* o := load l in
      match o with
      | ODict items => ret (dict_mem k items)
      | OList _ | OTuple _ => raise TypeError
      end
  | _ => raise TypeError
  end.

Definition py_keys (d : pyval) : M (list string) :=
  match d with
  | PRef l =>
      let* o := load l in
      match o with
      | ODict items => ret (map fst items)
      | OList _ | OTuple _ => raise TypeError
      end
  | _ => raise TypeError
  end.

(** ** From references to values and back *)

(** The value of a container, given the values of its entries. *)
Definition obj_value (f : pyval -> option value) (o : pyobj) : option value :=
  match o with
  | ODict items =>
      VDict <$> mapM (fun kx : string * pyval => pair kx.1 <$> f kx.2) items
  | OList items => VList <$> mapM f items
  | OTuple items => VTuple <$> mapM f items
  end.

(** Following references down to [n] containers deep. *)
Fixpoint reify (n : nat) (h : list pyobj) (v : pyval) : option value :=
  match v with
  | PNone => Some VNone
  | PBool b => Some (VBool b)
  | PInt z => Some (VInt z)
  | PStr s => Some (VStr s)
  | PRef l =>
      match n with
      | O => None
      | S n' =>
          match h !! l with
          | Some o => obj_value (reify n' h) o
          | None => None
          end
      end
  end.

(** The value of [v] in store [h].  A chain of distinct containers is at
    most [length h] long, so the result is [None] only for a cyclic (or
    dangling) structure. *)
Definition deep (h : list pyobj) (v : pyval) : option value :=
  reify (S (length h)) h v.

(** Materialising a value as fresh objects, children first: what
    [json.load] does with the text it has parsed (which holds no tuple),
    and what evaluating a literal does. *)
Fixpoint build (v : value) : M pyval :=
  match v with
  | VNone => ret PNone
  | VBool b => ret (PBool b)
  | VInt z => ret (PInt z)
  | VStr s => ret (PStr s)
  | VDict items =>
      let* items' :=
        (fix go (l : list (string * value)) : M (list (string * pyval)) :=
           match l with
           | [] => ret []
           | (k, x) :: r =>
               let* x' := build x in
               let* r' := go r in
               ret ((k, x') :: r')
           end) items in
      alloc (ODict items')
  | VList items =>
      let* items' :=
        (fix go (l : list value) : M (list pyval) :=
           match l with
           | [] => ret []
           | x :: r =>
               let* x' := build x in
               let* r' := go r in
               ret (x' :: r')
           end) items in
      alloc (OList items')
  | VTuple items =>
      let* items' :=
        (fix go (l : list value) : M (list pyval) :=
           match l with
           | [] => ret []
           | x :: r =>
               let* x' := build x in
               let* r' := go r in
               ret (x' :: r')
           end) items in
      alloc (OTuple items')
  end.

Fixpoint build_items (l : list (string * value)) : M (list (string * pyval)) :=
  match l with
  | [] => ret []
  | (k, x) :: r =>
      let* x' := build x in
      let* r' := build_items r in
      ret ((k, x') :: r')
  end.

Fixpoint build_elems (l : list value) : M (list pyval) :=
  match l with
  | [] => ret []
  | x :: r =>
      let* x' := build x in
      let* r' := build_elems r in
      ret (x' :: r')
  end.

(** Nesting depth of containers. *)
Definition depth_with {A} (d : A -> nat) (l : list A) : nat :=
  foldr (fun x m => Nat.max (d x) m) 0 l.

Fixpoint vdepth (v : value) : nat :=
  match v with
  | VDict items =>
      S ((fix go (l : list (string * value)) : nat :=
            match l with
            | [] => 0
            | (_, x) :: r => Nat.max (vdepth x) (go r)
            end) items)
  | VList items | VTuple items =>
      S ((fix go (l : list value) : nat :=
            match l with
            | [] => 0
            | x :: r => Nat.max (vdepth x) (go r)
            end) items)
  | _ => 0
  end.

(** *** Induction over values, through the lists they nest *)

Section value_induction.
Variable P : value -> Prop.
Hypothesis HNone : P VNone.
Hypothesis HBool : forall b, P (VBool b).
Hypothesis HInt : forall z, P (VInt z).
Hypothesis HStr : forall s, P (VStr s).
Hypothesis HDict :
  forall items, Forall (fun kx => P kx.2) items -> P (VDict items).
Hypothesis HList : forall items, Forall P items -> P (VList items).
Hypothesis HTuple : forall items, Forall P items -> P (VTuple items).

Fixpoint value_nested_ind (v : value) : P v :=
  match v with
  | VNone => HNone
  | VBool b => HBool b
  | VInt z => HInt z
  | VStr s => HStr s
  | VDict items =>
      HDict items
        ((fix go (l : list (string * value)) : Forall (fun kx => P kx.2) l :=
            match l with
            | [] => List.Forall_nil _
            | (k, x) :: r =>
                @List.Forall_cons _ (fun kx => P kx.2) (k, x) r
                  (value_nested_ind x) (go r)
            end) items)
  | VList items =>
      HList items
        ((fix go (l : list value) : Forall P l :=
            match l with
            | [] => List.Forall_nil _
            | x :: r => @List.Forall_cons _ P x r (value_nested_ind x) (go r)
            end) items)
  | VTuple items =>
      HTuple items
        ((fix go (l : list value) : Forall P l :=
            match l with
            | [] => List.Forall_nil _
            | x :: r => @List.Forall_cons _ P x r (value_nested_ind x) (go r)
            end) items)
  end.
End value_induction.

(** ** Files *)

(** [os.path.exists(p)] *)
Definition path_exists (p : string) : M bool :=
  fun w => Ok (match files w !! p with Some _ => true | None => false end, w).

(** Reading the whole text of a file. *)
Definition read_text (p : string) : M string :=
  fun w => match files w !! p with
           | Some c => Ok (c, w)
           | None => Raise FileNotFoundError
           end.

(** Creating or replacing a file with the given text. *)
Definition write_text (p c : string) : M unit :=
  fun w => Ok (tt, set_files (<[p := c]> (files w)) w).

(** [os.remove(p)] *)
Definition os_remove (p : string) : M unit :=
  fun w => match files w !! p with
           | Some _ => Ok (tt, set_files (delete p (files w)) w)
           | None => Raise FileNotFoundError
           end.

(** [shutil.copyfile(src, dst)]: refuses to copy a file onto itself, needs
    the source to exist, creates or replaces the destination. *)
Definition copyfile (src dst : string) : M unit :=
  if String.eqb src dst then raise SameFileError
  else let* c := read_text src in write_text dst c.

(** ** JSON *)

(** [json.dumps] and [json.loads] are library functions; the development is
    parametric in them. *)
Class JsonCodec : Type := {
  dumps : value -> string;
  loads : string -> option value
}.

Section json_files.
Context {codec : JsonCodec}.

(** [with open(p, 'w') as f: json.dump(data, f)].  A circular structure
    makes [json.dump] raise [ValueError]. *)
Definition json_dump (data : pyval) (p : string) : M unit :=
  fun w => match deep (heap w) data with
           | Some v => write_text p (dumps v) w
           | None => Raise ValueError
           end.

(** [with open(p, 'r') as f: json.load(f)] *)
Definition json_load (p : string) : M pyval :=
  let* c := read_text p in
  match loads c with
  | Some v => build v
  | None => raise JSONDecodeError
  end.

End json_files.

(** ** The storage interfaces *)

(** [Storage]: read the whole state, write the whole state, close. *)
Class Storage (St : Type) : Type := {
  read : St -> M pyval;
  write : pyval -> St -> M St;
  close : St -> M St
}.

(** [ExtendedStorage(Storage)]: transactions and backup/restore.  (In the
    base class each of the five raises [NotImplementedError]; both storages
    below override all of them.) *)
Class ExtendedStorage (St : Type) `{Storage St} : Type := {
  begin_transaction : St -> M St;
  commit_transaction : St -> M St;
  rollback_transaction : St -> M St;
  backup : string -> St -> M St;
  restore : string -> St -> M St
}.

(** What [read()] returns, as a value: the observation the properties of
    the storages are about. *)
Definition read_value {St} `{Storage St} (self : St) (w : world) : res value :=
  match read self w with
  | Ok (r, w') =>
      match deep (heap w') r with
      | Some v => Ok v
      | None => Raise ValueError
      end
  | Raise e => Raise e
  end.

(** ** ExtendedMemoryStorage *)

Record ExtendedMemoryStorage : Type := {
  memory : pyval;
  _transaction_backup : pyval
}.

(** [__init__]: the base class starts with nothing written, [memory =
    None], and the subclass adds [_transaction_backup = None]. *)
Definition ExtendedMemoryStorage_init : M ExtendedMemoryStorage :=
  ret {| memory := PNone; _transaction_backup := PNone |}.

(** Modelled from the spec: [MemoryStorage.read], inherited from the base
    class in [tinydb.storages], which is not among the sources.  It returns
    the stored state (the object itself), or the absent marker [None] when
    nothing has been written. *)
Definition MemoryStorage_read (self : ExtendedMemoryStorage) : M pyval :=
  ret (memory self).

(** Modelled from the spec: [MemoryStorage.write], inherited from the same
    base class.  It replaces the whole stored state. *)
Definition MemoryStorage_write (data : pyval) (self : ExtendedMemoryStorage)
  : M ExtendedMemoryStorage :=
  ret {| memory := data; _transaction_backup := _transaction_backup self |}.

(** Modelled from the spec: [MemoryStorage.close], inherited from the same
    base class.  There is nothing to release. *)
Definition MemoryStorage_close (self : ExtendedMemoryStorage)
  : M ExtendedMemoryStorage :=
  ret self.

#[export] Instance MemoryStorage_Storage : Storage ExtendedMemoryStorage := {
  read := MemoryStorage_read;
  write := MemoryStorage_write;
  close := MemoryStorage_close
}.

Module Memory.
Section methods.
Context {codec : JsonCodec}.

(** [data = self.read() or {}; self._transaction_backup = data.copy()] *)
Definition begin_transaction (self : ExtendedMemoryStorage)
  : M ExtendedMemoryStorage :=
  let* r := read self in
  let* t := truthy r in
  let* data := if t then ret r else alloc (ODict []) in
  let* c := py_copy data in
  ret {| memory := memory self; _transaction_backup := c |}.

Definition commit_transaction (self : ExtendedMemoryStorage)
  : M ExtendedMemoryStorage :=
  ret {| memory := memory self; _transaction_backup := PNone |}.

Definition rollback_transaction (self : ExtendedMemoryStorage)
  : M ExtendedMemoryStorage :=
  match _transaction_backup self with
  | PNone => ret self
  | b =>
      let* self := write b self in
      ret {| memory := memory self; _transaction_backup := PNone |}
  end.

Definition backup (backup_path : string) (self : ExtendedMemoryStorage)
  : M ExtendedMemoryStorage :=
  let* data := read self in
  match data with
  | PNone => ret self
  | _ => let* _ := json_dump data backup_path in ret self
  end.

Definition restore (backup_path : string) (self : ExtendedMemoryStorage)
  : M ExtendedMemoryStorage :=
  let* e := path_exists backup_path in
  if e then
    let* data := json_load backup_path in
    write data self
  else ret self.

End methods.
End Memory.

#[export] Instance ExtendedMemoryStorage_Extended {codec : JsonCodec}
  : ExtendedStorage ExtendedMemoryStorage := {
  begin_transaction := Memory.begin_transaction;
  commit_transaction := Memory.commit_transaction;
  rollback_transaction := Memory.rollback_transaction;
  backup := Memory.backup;
  restore := Memory.restore
}.

(** ** ExtendedJSONStorage *)

Record ExtendedJSONStorage : Type := {
  _handle_name : string;
  _transaction_backup_path : string
}.

(** [__init__(path)]: the base class creates the file when it does not
    exist and opens it; the subclass sets the shadow path to
    [path + '.bak']. *)
Definition ExtendedJSONStorage_init (path : string) : M ExtendedJSONStorage :=
  let* e := path_exists path in
  let* _ := if e then ret tt else write_text path EmptyString in
  ret {| _handle_name := path; _transaction_backup_path := path ++ ".bak" |}.

(** Modelled from the spec: [JSONStorage.read], inherited from the base
    class in [tinydb.storages], which is not among the sources.  It returns
    the absent marker for an empty file and the parsed content otherwise. *)
Definition JSONStorage_read {codec : JsonCodec} (self : ExtendedJSONStorage)
  : M pyval :=
  let* c := read_text (_handle_name self) in
  if String.eqb c EmptyString then ret PNone
  else match loads c with
       | Some v => build v
       | None => raise JSONDecodeError
       end.

(** Modelled from the spec: [JSONStorage.write], inherited from the same
    base class.  It replaces the whole file with the serialized state. *)
Definition JSONStorage_write {codec : JsonCodec} (data : pyval)
  (self : ExtendedJSONStorage) : M ExtendedJSONStorage :=
  let* _ := json_dump data (_handle_name self) in
  ret self.

(** Modelled from the spec: [JSONStorage.close], inherited from the same
    base class.  It releases the handle and leaves the file as it is. *)
Definition JSONStorage_close (self : ExtendedJSONStorage)
  : M ExtendedJSONStorage :=
  ret self.

#[export] Instance JSONStorage_Storage {codec : JsonCodec}
  : Storage ExtendedJSONStorage := {
  read := JSONStorage_read;
  write := JSONStorage_write;
  close := JSONStorage_close
}.

Module Json.

Definition begin_transaction (self : ExtendedJSONStorage)
  : M ExtendedJSONStorage :=
  let* _ := copyfile (_handle_name self) (_transaction_backup_path self) in
  ret self.

Definition commit_transaction (self : ExtendedJSONStorage)
  : M ExtendedJSONStorage :=
  let* e := path_exists (_transaction_backup_path self) in
  if e then
    let* _ := os_remove (_transaction_backup_path self) in
    ret self
  else ret self.

Definition rollback_transaction (self : ExtendedJSONStorage)
  : M ExtendedJSONStorage :=
  let* e := path_exists (_transaction_backup_path self) in
  if e then
    let* _ := copyfile (_transaction_backup_path self) (_handle_name self) in
    let* _ := os_remove (_transaction_backup_path self) in
    ret self
  else ret self.

Definition backup (backup_path : string) (self : ExtendedJSONStorage)
  : M ExtendedJSONStorage :=
  let* _ := copyfile (_handle_name self) backup_path in
  ret self.

Definition restore (backup_path : string) (self : ExtendedJSONStorage)
  : M ExtendedJSONStorage :=
  let* _ := copyfile backup_path (_handle_name self) in
  ret self.

End Json.

#[export] Instance ExtendedJSONStorage_Extended {codec : JsonCodec}
  : ExtendedStorage ExtendedJSONStorage := {
  begin_transaction := Json.begin_transaction;
  commit_transaction := Json.commit_transaction;
  rollback_transaction := Json.rollback_transaction;
  backup := Json.backup;
  restore := Json.restore
}.

(** ** Middlewares *)

(** An instance of [CachingMiddleware]: the attribute [storage] of the base
    class [Middleware], the buffer and its modification counter, and the
    class attribute [WRITE_CACHE_SIZE] as the instance sees it. *)
Record CachingMiddleware (St : Type) : Type := {
  storage : St;
  cache : pyval;
  _cache_modified_count : nat;
  WRITE_CACHE_SIZE : nat
}.
Arguments storage {St} _.
Arguments cache {St} _.
Arguments _cache_modified_count {St} _.
Arguments WRITE_CACHE_SIZE {St} _.

Module Middleware.
Section methods.
Context {St : Type} `{Storage St}.

(** The methods of the base class, which forward to the wrapped storage. *)
Definition read (self : CachingMiddleware St) : M pyval :=
  read (storage self).

Definition write (data : pyval) (self : CachingMiddleware St)
  : M (CachingMiddleware St) :=
  let* s := write data (storage self) in
  ret {| storage := s; cache := cache self;
         _cache_modified_count := _cache_modified_count self;
         WRITE_CACHE_SIZE := WRITE_CACHE_SIZE self |}.

Definition close (self : CachingMiddleware St) : M (CachingMiddleware St) :=
  let* s := close (storage self) in
  ret {| storage := s; cache := cache self;
         _cache_modified_count := _cache_modified_count self;
         WRITE_CACHE_SIZE := WRITE_CACHE_SIZE self |}.

End methods.
End Middleware.

Module Caching.
Section methods.
Context {St : Type} `{Storage St}.

(** [__init__(storage_cls)]: [self.storage = storage_cls()], an empty
    buffer and a counter at 0; [WRITE_CACHE_SIZE = 1000] in the class. *)
Definition init (storage_cls : M St) : M (CachingMiddleware St) :=
  let* s := storage_cls in
  ret {| storage := s; cache := PNone;
         _cache_modified_count := 0; WRITE_CACHE_SIZE := 1000 |}.

Definition read (self : CachingMiddleware St)
  : M (pyval * CachingMiddleware St) :=
  match cache self with
  | PNone =>
      let* r := Middleware.read self in
      ret (r, {| storage := storage self; cache := r;
                 _cache_modified_count := _cache_modified_count self;
                 WRITE_CACHE_SIZE := WRITE_CACHE_SIZE self |})
  | c => ret (c, self)
  end.

Definition flush (self : CachingMiddleware St) : M (CachingMiddleware St) :=
  if (0 <? _cache_modified_count self)%nat then
    let* self := Middleware.write (cache self) self in
    ret {| storage := storage self; cache := cache self;
           _cache_modified_count := 0;
           WRITE_CACHE_SIZE := WRITE_CACHE_SIZE self |}
  else ret self.

Definition write (data : pyval) (self : CachingMiddleware St)
  : M (CachingMiddleware St) :=
  let self := {| storage := storage self; cache := data;
                 _cache_modified_count := S (_cache_modified_count self);
                 WRITE_CACHE_SIZE := WRITE_CACHE_SIZE self |} in
  if (WRITE_CACHE_SIZE self <=? _cache_modified_count self)%nat
  then flush self
  else ret self.

Definition close (self : CachingMiddleware St) : M (CachingMiddleware St) :=
  let* self := flush self in
  Middleware.close self.

(** Calling the method called [name] on an instance.  The class defines
    [read], [write], [flush] and [close]; its base [Middleware] defines
    nothing else, and neither has a [__getattr__], so looking up any
    other method raises [AttributeError]. *)
Definition call (name : string) (args : list pyval)
  (self : CachingMiddleware St) : M (pyval * CachingMiddleware St) :=
  if String.eqb name "read" then
    match args with
    | [] => read self
    | _ => raise TypeError
    end
  else if String.eqb name "write" then
    match args with
    | [data] => let* self := write data self in ret (PNone, self)
    | _ => raise TypeError
    end
  else if String.eqb name "flush" then
    match args with
    | [] => let* self := flush self in ret (PNone, self)
    | _ => raise TypeError
    end
  else if String.eqb name "close" then
    match args with
    | [] => let* self := close self in ret (PNone, self)
    | _ => raise TypeError
    end
  else raise AttributeError.

End methods.
End Caching.

(** ** TinyDB *)

(** The facade, with the fields these properties involve.  ([_tables]
    caches the [Table] objects of the table layer, which is not modelled.) *)
Record TinyDB (St : Type) : Type := {
  _storage : St;
  _opened : bool;
  _schemas : gmap string pyval
}.
Arguments _storage {St} _.
Arguments _opened {St} _.
Arguments _schemas {St} _.

Module Facade.
Section methods.
Context {St : Type} `{ExtendedStorage St}.

(** [__init__(storage=...)]: builds the storage, no schema yet. *)
Definition init (storage : M St) : M (TinyDB St) :=
  let* s := storage in
  ret {| _storage := s; _opened := true; _schemas := ∅ |}.

Definition with_storage (self : TinyDB St) (s : St) : TinyDB St :=
  {| _storage := s; _opened := _opened self; _schemas := _schemas self |}.

Definition close (self : TinyDB St) : M (TinyDB St) :=
  let* s := close (_storage self) in
  ret {| _storage := s; _opened := false; _schemas := _schemas self |}.

Definition begin_transaction (self : TinyDB St) : M (TinyDB St) :=
  let* s := begin_transaction (_storage self) in
  ret (with_storage self s).

Definition commit_transaction (self : TinyDB St) : M (TinyDB St) :=
  let* s := commit_transaction (_storage self) in
  ret (with_storage self s).

Definition rollback_transaction (self : TinyDB St) : M (TinyDB St) :=
  let* s := rollback_transaction (_storage self) in
  ret (with_storage self s).

Definition backup (backup_path : string) (self : TinyDB St) : M (TinyDB St) :=
  let* s := backup backup_path (_storage self) in
  ret (with_storage self s).

Definition restore (backup_path : string) (self : TinyDB St) : M (TinyDB St) :=
  let* s := restore backup_path (_storage self) in
  ret (with_storage self s).

(** [self._schemas[table_name] = schema] *)
Definition set_schema (table_name : string) (schema : pyval)
  (self : TinyDB St) : TinyDB St :=
  {| _storage := _storage self; _opened := _opened self;
     _schemas := <[table_name := schema]> (_schemas self) |}.

(** [all(field in document for field in fields)]: stops at the first
    field that is missing. *)
Fixpoint all_in (fields : list string) (document : pyval) : M bool :=
  match fields with
  | [] => ret true
  | field :: rest =>
      let* b := py_contains document field in
      if b then all_in rest document else ret false
  end.

(** [schema = self._schemas.get(table_name, {})], where the default [{}]
    is built before [get] is called, then the check over its keys. *)
Definition validate_document (table_name : string) (document : pyval)
  (self : TinyDB St) : M bool :=
  let* default := alloc (ODict []) in
  let schema :=
    match _schemas self !! table_name with
    | Some schema => schema
    | None => default
    end in
  let* fields := py_keys schema in
  all_in fields document.

End methods.
End Facade.

(** ** A codec to run the model on examples *)

(** A printer and a parser for the fragment of JSON without string escapes,
    with the separators [json.dumps] uses by default.  The theorems below
    hold for every codec; this one makes the examples executable. *)
Module MiniJson.

Definition quote : ascii := ascii_of_nat 34.

Definition is_digit (c : ascii) : bool :=
  let n := nat_of_ascii c in (48 <=? n)%nat && (n <=? 57)%nat.

Fixpoint print (v : value) : string :=
  match v with
  | VNone => "null"
  | VBool true => "true"
  | VBool false => "false"
  | VInt z => NilZero.string_of_int (Z.to_int z)
  | VStr s => String quote s +:+ String quote EmptyString
  | VDict items =>
      "{" +:+
      (fix go (l : list (string * value)) : string :=
         match l with
         | [] => EmptyString
         | [(k, x)] =>
             String quote k +:+ String quote ": " +:+ print x
         | (k, x) :: r =>
             String quote k +:+ String quote ": " +:+ print x +:+ ", " +:+ go r
         end) items +:+ "}"
  | VList items | VTuple items =>
      "[" +:+
      (fix go (l : list value) : string :=
         match l with
         | [] => EmptyString
         | [x] => print x
         | x :: r => print x +:+ ", " +:+ go r
         end) items +:+ "]"
  end.

Fixpoint skip_ws (s : list ascii) : list ascii :=
  match s with
  | " "%char :: r => skip_ws r
  | _ => s
  end.

Fixpoint span (p : ascii -> bool) (s : list ascii) : list ascii * list ascii :=
  match s with
  | c :: r =>
      if p c then let '(a, b) := span p r in (c :: a, b) else ([], s)
  | [] => ([], [])
  end.

(** A double-quoted string without escapes. *)
Definition parse_string (s : list ascii) : option (string * list ascii) :=
  match s with
  | c :: r =>
      if Ascii.eqb c quote then
        match span (fun c => negb (Ascii.eqb c quote)) r with
        | (body, _ :: rest) => Some (String.string_of_list_ascii body, rest)
        | (_, []) => None
        end
      else None
  | [] => None
  end.

Definition parse_int (s : list ascii) : option (Z * list ascii) :=
  let '(sign, r) :=
    match s with
    | "-"%char :: r => (["-"%char], r)
    | _ => ([], s)
    end in
  let '(digits, rest) := span is_digit r in
  match NilZero.int_of_string (String.string_of_list_ascii (sign ++ digits)) with
  | Some i => Some (Z.of_int i, rest)
  | None => None
  end.

Fixpoint parse (n : nat) (s : list ascii) : option (value * list ascii) :=
  match n with
  | O => None
  | S n =>
      match skip_ws s with
      | "n"%char :: "u"%char :: "l"%char :: "l"%char :: r => Some (VNone, r)
      | "t"%char :: "r"%char :: "u"%char :: "e"%char :: r =>
          Some (VBool true, r)
      | "f"%char :: "a"%char :: "l"%char :: "s"%char :: "e"%char :: r =>
          Some (VBool false, r)
      | "["%char :: r =>
          match skip_ws r with
          | "]"%char :: r' => Some (VList [], r')
          | _ =>
              match
                (fix elems (k : nat) (s : list ascii)
                   : option (list value * list ascii) :=
                   match k with
                   | O => None
                   | S k =>
                       match parse n s with
                       | Some (v, r1) =>
                           match skip_ws r1 with
                           | ","%char :: r2 =>
                               match elems k r2 with
                               | Some (vs, r3) => Some (v :: vs, r3)
                               | None => None
                               end
                           | "]"%char :: r2 => Some ([v], r2)
                           | _ => None
                           end
                       | None => None
                       end
                   end) (length r) r
              with
              | Some (vs, r') => Some (VList vs, r')
              | None => None
              end
          end
      | "{"%char :: r =>
          match skip_ws r with
          | "}"%char :: r' => Some (VDict [], r')
          | _ =>
              match
                (fix members (k : nat) (s : list ascii)
                   : option (list (string * value) * list ascii) :=
                   match k with
                   | O => None
                   | S k =>
                       match parse_string (skip_ws s) with
                       | Some (key, r0) =>
                           match skip_ws r0 with
                           | ":"%char :: r0' =>
                               match parse n r0' with
                               | Some (v, r1) =>
                                   match skip_ws r1 with
                                   | ","%char :: r2 =>
                                       match members k r2 with
                                       | Some (vs, r3) => Some ((key, v) :: vs, r3)
                                       | None => None
                                       end
                                   | "}"%char :: r2 => Some ([(key, v)], r2)
                                   | _ => None
                                   end
                               | None => None
                               end
                           | _ => None
                           end
                       | None => None
                       end
                   end) (length r) r
              with
              | Some (vs, r') => Some (VDict vs, r')
              | None => None
              end
          end
      | c :: r =>
          if Ascii.eqb c quote then
            match parse_string (c :: r) with
            | Some (str, r') => Some (VStr str, r')
            | None => None
            end
          else
            match parse_int (c :: r) with
            | Some (z, r') => Some (VInt z, r')
            | None => None
            end
      | [] => None
      end
  end.

(** The whole text must be one value. *)
Definition parse_text (text : string) : option value :=
  let s := String.list_ascii_of_string text in
  match parse (S (length s)) s with
  | Some (v, r) =>
      match skip_ws r with
      | [] => Some v
      | _ => None
      end
  | None => None
  end.

#[export] Instance codec : JsonCodec := {
  dumps := print;
  loads := parse_text
}.

End MiniJson.

(** ** Notions used in the statements *)

Definition empty_world : world := {| heap := []; files := ∅ |}.

(** Running a list of calls that each update the receiver. *)
Fixpoint iterM {A S : Type} (f : A -> S -> M S) (l : list A) (s : S) : M S :=
  match l with
  | [] => ret s
  | a :: r => let* s := f a s in iterM f r s
  end.

(** What [read()] returns once the computation [m] has produced the
    storage. *)
Definition observe {St} `{Storage St} (m : M St) (w : world) : res value :=
  match m w with
  | Ok (self, w') => read_value self w'
  | Raise e => Raise e
  end.


(** The buffer of the caching middleware holds something. *)
Definition populated {St} (m : CachingMiddleware St) : Prop :=
  cache m <> PNone.

(** A read of the storage returns what was just written to it. *)
Definition read_after_write (St : Type) `{Storage St} : Prop :=
  forall d (s s' : St) w w' v,
    write d s w = Ok (s', w') ->
    deep (heap w) d = Some v ->
    read_value s' w' = Ok v.

(** Closing the storage does not change what it holds. *)
Definition close_keeps_state (St : Type) `{Storage St} : Prop :=
  forall (s s' : St) w w',
    close s w = Ok (s', w') -> read_value s' w' = read_value s w.

(** The calls a client makes on the caching middleware. *)
Inductive cache_op : Type :=
| OpRead
| OpWrite (data : pyval)
| OpFlush.

Definition run_op {St} `{Storage St} (o : cache_op)
  (self : CachingMiddleware St) : M (CachingMiddleware St) :=
  match o with
  | OpRead => let* r := Caching.read self in ret r.2
  | OpWrite data => Caching.write data self
  | OpFlush => Caching.flush self
  end.

(** [write] is given a state, never [None]. *)
Definition writes_state (o : cache_op) : Prop :=
  match o with
  | OpWrite PNone => False
  | _ => True
  end.

(** The value of a Python object, as a computation. *)
Definition value_of (r : pyval) : M value :=
  fun w => match deep (heap w) r with
           | Some v => Ok (v, w)
           | None => Raise ValueError
           end.

(** A storage that only records the writes and closes it receives, and
    cannot be read: a [read()] that succeeds through a middleware did not
    reach it. *)
Inductive call_event : Type :=
| WriteCall (data : pyval)
| CloseCall.

#[export] Instance Recorder_Storage : Storage (list call_event) := {
  read := fun log => raise FileNotFoundError;
  write := fun data log => ret (log ++ [WriteCall data])%list;
  close := fun log => ret (log ++ [CloseCall])%list
}.

(** [build v] succeeds, only allocates, and the result has value [v]. *)
Definition build_ok (v : value) : Prop :=
  forall w, exists r h',
    build v w = Ok (r, set_heap (heap w ++ h') w) /\
    reify (vdepth v) (heap w ++ h') r = Some v /\
    vdepth v <= length h'.

(** What [JSONStorage.read] makes of the text of its file. *)
Definition decode {codec : JsonCodec} (c : string) : res value :=
  if String.eqb c EmptyString then Ok VNone
  else match loads c with
       | Some v => Ok v
       | None => Raise JSONDecodeError
       end.

Definition succeeded {A} (r : res A) : bool :=
  match r with Ok _ => true | Raise _ => false end.

(** The result of a run, without the final world. *)
Definition outcome {A} (r : res (A * world)) : res A :=
  match r with Ok (a, _) => Ok a | Raise e => Raise e end.

(** *** Example runs *)

Definition ex_state : value :=
  VDict [("t", VDict [("1", VDict [("n", VInt 1)])])].

Definition ex_db : string := "db.json".

(** A memory storage holding [ex_state]. *)
Definition ex_memory : M ExtendedMemoryStorage :=
  let* self := ExtendedMemoryStorage_init in
  let* s := build ex_state in
  write s self.

(** A file storage holding [ex_state]. *)
Definition ex_json : M ExtendedJSONStorage :=
  let* self := ExtendedJSONStorage_init ex_db in
  let* s := build ex_state in
  JSONStorage_write (codec := MiniJson.codec) s self.

(** A client that changes a document in place: [d = read();
    d['t']['1'] = {'n': 2}; write(d)]. *)
Definition ex_nested_update {St} `{Storage St} (self : St) : M St :=
  let* d := read self in
  let* t := py_getitem d "t" in
  let* doc := build (VDict [("n", VInt 2)]) in
  let* _ := py_setitem t "1" doc in
  write d self.

(** [begin_transaction()], the in-place change, [rollback_transaction()]. *)
Definition ex_rollback_memory : M ExtendedMemoryStorage :=
  let* self := ex_memory in
  let* self := Memory.begin_transaction self in
  let* self := ex_nested_update self in
  Memory.rollback_transaction self.

Definition ex_rollback_json : M ExtendedJSONStorage :=
  let* self := ex_json in
  let* self := Json.begin_transaction self in
  let* self := ex_nested_update (H := JSONStorage_Storage (codec := MiniJson.codec)) self in
  Json.rollback_transaction self.

(** A client that adds a table in place: [d = read(); d['u'] = {};
    write(d)], as [drop_table] does with [del data[name]]. *)
Definition ex_top_level_update {St} `{Storage St} (self : St) : M St :=
  let* d := read self in
  let* tbl := build (VDict []) in
  let* _ := py_setitem d "u" tbl in
  write d self.

Definition ex_rollback_memory_top_level : M ExtendedMemoryStorage :=
  let* self := ex_memory in
  let* self := Memory.begin_transaction self in
  let* self := ex_top_level_update self in
  Memory.rollback_transaction self.

(** A caching middleware over a memory storage, after [write(ex_state)] and
    [flush()]: buffer and wrapped storage both hold [ex_state]. *)
Definition ex_cached : M (CachingMiddleware ExtendedMemoryStorage) :=
  let* m := Caching.init ExtendedMemoryStorage_init in
  let* a := build ex_state in
  let* m := Caching.write a m in
  Caching.flush m.

Definition with_storage {St} (m : CachingMiddleware St) (s : St)
  : CachingMiddleware St :=
  {| storage := s; cache := cache m;
     _cache_modified_count := _cache_modified_count m;
     WRITE_CACHE_SIZE := WRITE_CACHE_SIZE m |}.

(** A transaction on the wrapped storage around a buffered [write({})],
    rolled back; then what [read()] returns through the middleware, and
    what the wrapped storage holds. *)
Definition ex_stale_after_rollback : M (value * value) :=
  let* m := ex_cached in
  let* s := Memory.begin_transaction (storage m) in
  let m := with_storage m s in
  let* b := build (VDict []) in
  let* m := Caching.write b m in
  let* s := Memory.rollback_transaction (storage m) in
  let m := with_storage m s in
  let* r := Caching.read m in
  let* through_cache := value_of r.1 in
  let* inner := read (storage r.2) in
  let* in_storage := value_of inner in
  ret (through_cache, in_storage).

(** [rollback_transaction()] called on the middleware itself. *)
Definition ex_rollback_through_cache
  : M (pyval * CachingMiddleware ExtendedMemoryStorage) :=
  let* m := ex_cached in
  Caching.call "rollback_transaction" [] m.

(** [begin_transaction()] twice in a row, on each backend. *)
Definition ex_begin_twice_memory : M ExtendedMemoryStorage :=
  let* self := ex_memory in
  let* self := Memory.begin_transaction self in
  Memory.begin_transaction self.

Definition ex_begin_twice_json : M ExtendedJSONStorage :=
  let* self := ex_json in
  let* self := Json.begin_transaction self in
  Json.begin_transaction self.

(** [backup('backup.json')] on a memory storage nothing was written to. *)
Definition ex_backup_absent : M ExtendedMemoryStorage :=
  let* self := ExtendedMemoryStorage_init in
  Memory.backup (codec := MiniJson.codec) "backup.json" self.

(** A state with a tuple in a document, [{'t': {'1': {'xy': (1, 2)}}}],
    and what [json.load] makes of its [json.dump]. *)
Definition ex_tuple_state : value :=
  VDict [("t", VDict [("1", VDict [("xy", VTuple [VInt 1; VInt 2])])])].

Definition ex_tuple_state_loaded : value :=
  VDict [("t", VDict [("1", VDict [("xy", VList [VInt 1; VInt 2])])])].

(** A memory storage holding [ex_tuple_state]. *)
Definition ex_memory_tuple : M ExtendedMemoryStorage :=
  let* self := ExtendedMemoryStorage_init in
  let* s := build ex_tuple_state in
  write s self.

(** [backup('backup.json'); write({}); restore('backup.json')] on it. *)
Definition ex_backup_restore_tuple : M ExtendedMemoryStorage :=
  let* self := ex_memory_tuple in
  let* self := Memory.backup (codec := MiniJson.codec) "backup.json" self in
  let* e := build (VDict []) in
  let* self := write e self in
  Memory.restore (codec := MiniJson.codec) "backup.json" self.

(** [backup('backup.json')] of a state that contains itself:
    [d = {}; d['t'] = d; write(d); backup('backup.json')]. *)
Definition ex_backup_circular : M ExtendedMemoryStorage :=
  let* self := ExtendedMemoryStorage_init in
  let* d := alloc (ODict []) in
  let* _ := py_setitem d "t" d in
  let* self := write d self in
  Memory.backup (codec := MiniJson.codec) "backup.json" self.


(** A world for further runs: the state [{'t': {'n': 1}, 'u': 5}] at
    location 1, an empty dictionary at location 2, and a database file. *)
Definition ex_world : world :=
  {| heap := [ODict [("n", PInt 1)];
              ODict [("t", PRef 0); ("u", PInt 5)];
              ODict []];
     files := {[ "db.json" := "[0]" ]} |}.

Definition ex_world_state : value :=
  VDict [("t", VDict [("n", VInt 1)]); ("u", VInt 5)].

Definition ex_mem : ExtendedMemoryStorage :=
  {| memory := PRef 1; _transaction_backup := PNone |}.

Definition ex_file : ExtendedJSONStorage :=
  {| _handle_name := "db.json"; _transaction_backup_path := "db.json.bak" |}.

(** ** The rest of the facade *)

Fixpoint dict_del {A} (k : string) (items : list (string * A))
  : list (string * A) :=
  match items with
  | [] => []
  | (k', x) :: r =>
      if String.eqb k k' then r else (k', x) :: dict_del k r
  end.

(** [del d[k]] on a reference to a dictionary. *)
Definition py_delitem (d : pyval) (k : string) : M unit :=
  match d with
  | PRef l =>
      let* o := load l in
      match o with
      | ODict items =>
          if dict_mem k items then store l (ODict (dict_del k items))
          else raise KeyError
      | OList _ | OTuple _ => raise TypeError
      end
  | _ => raise TypeError
  end.

(** The facade with its cache of table handles.  A [Table] belongs to the
    table layer, which is not modelled: its type [Tbl] is a parameter, and
    so is the constructor [table_class]. *)
Record Database (St Tbl : Type) : Type := {
  facade : TinyDB St;
  _tables : gmap string Tbl
}.
Arguments facade {St Tbl} _.
Arguments _tables {St Tbl} _.

Module TinyDBMethods.
Section methods.
Context {St Tbl : Type} `{Storage St}.
Variable table_class : St -> string -> Tbl.


(** [tables()]: [set(self.storage.read() or {})] *)
Definition tables (self : TinyDB St) : M (gset string) :=
  let* r := read (_storage self) in
  let* t := truthy r in
  let* data := if t then ret r else alloc (ODict []) in
  let* names := py_keys data in
  ret (list_to_set names).

(** [drop_tables()]: [self.storage.write({}); self._tables.clear()] *)
Definition drop_tables (self : Database St Tbl) : M (Database St Tbl) :=
  let* empty := alloc (ODict []) in
  let* s := write empty (_storage (facade self)) in
  ret {| facade := Facade.with_storage (facade self) s; _tables := ∅ |}.

(** [drop_table(name)]: the handle leaves the cache; then, unless there is
    no state or no such table, the table is deleted from the state that
    [read()] returned and that object is written back. *)
Definition drop_table (name : string) (self : Database St Tbl)
  : M (Database St Tbl) :=
  let self := {| facade := facade self;
                 _tables := delete name (_tables self) |} in
  let* data := read (_storage (facade self)) in
  match data with
  | PNone => ret self
  | _ =>
      let* present := py_contains data name in
      if present then
        let* _ := py_delitem data name in
        let* s := write data (_storage (facade self)) in
        ret {| facade := Facade.with_storage (facade self) s;
               _tables := _tables self |}
      else ret self
  end.

(** [__exit__]: [if self._opened: self.close()] *)
Definition exit (self : TinyDB St) : M (TinyDB St) :=
  if _opened self then Facade.close self else ret self.

End methods.
End TinyDBMethods.

(** ** LoggingMiddleware *)

Definition newline : string := String (ascii_of_nat 10) EmptyString.

(** [with open(p, 'a') as f: f.write(c)]: the file is created when it does
    not exist. *)
Definition append_text (p c : string) : M unit :=
  fun w =>
    Ok (tt, set_files
              (<[p := default EmptyString (files w !! p) +:+ c]> (files w)) w).

Module Logging.

Record LoggingMiddleware (St : Type) : Type := {
  storage : St;
  log_file : string
}.
Arguments storage {St} _.
Arguments log_file {St} _.

Section methods.
Context {St : Type} `{Storage St}.

(** [__init__(storage_cls, log_file=None)]:
    [self.log_file = log_file if log_file else 'tinydb.log'] *)
Definition init (storage_cls : M St) (file : option string)
  : M (LoggingMiddleware St) :=
  let* s := storage_cls in
  ret {| storage := s;
         log_file :=
           match file with
           | Some f => if String.eqb f EmptyString then "tinydb.log" else f
           | None => "tinydb.log"
           end |}.

(** [_log_operation(operation)] appends
    [f"{operation} performed at {datetime.now()}\n"]; the text of the
    current time is an input of the call. *)
Definition _log_operation (now operation : string)
  (self : LoggingMiddleware St) : M unit :=
  append_text (log_file self)
    (operation +:+ " performed at " +:+ now +:+ newline).

Definition read (now : string) (self : LoggingMiddleware St) : M pyval :=
  let* _ := _log_operation now "Read operation" self in
  read (storage self).

Definition write (now : string) (data : pyval) (self : LoggingMiddleware St)
  : M (LoggingMiddleware St) :=
  let* _ := _log_operation now "Write operation" self in
  let* s := write data (storage self) in
  ret {| storage := s; log_file := log_file self |}.

Definition close (now : string) (self : LoggingMiddleware St)
  : M (LoggingMiddleware St) :=
  let* _ := _log_operation now "Close operation" self in
  let* s := close (storage self) in
  ret {| storage := s; log_file := log_file self |}.

End methods.
End Logging.

(** ** Notions used in the further properties *)

(** The calls of the [Storage] interface. *)
Inductive storage_call : Type :=
| CallRead
| CallWrite (data : pyval)
| CallClose.

(** A call made on a storage directly. *)
Definition plain_call {St} `{Storage St} (c : storage_call) (s : St) : M St :=
  match c with
  | CallRead => let* _ := read s in ret s
  | CallWrite data => write data s
  | CallClose => close s
  end.

(** The same call made through the logging middleware at time [now]. *)
Definition logged_call {St} `{Storage St} (c : string * storage_call)
  (self : Logging.LoggingMiddleware St) : M (Logging.LoggingMiddleware St) :=
  match c.2 with
  | CallRead => let* _ := Logging.read c.1 self in ret self
  | CallWrite data => Logging.write c.1 data self
  | CallClose => Logging.close c.1 self
  end.

(** The line the middleware writes for a call. *)
Definition log_line (c : string * storage_call) : string :=
  match c.2 with
  | CallRead => "Read operation"
  | CallWrite _ => "Write operation"
  | CallClose => "Close operation"
  end +:+ " performed at " +:+ c.1 +:+ newline.

Definition log_lines (cs : list (string * storage_call)) : string :=
  foldr (fun c rest => log_line c +:+ rest) EmptyString cs.

(** A storage that neither reads nor writes files. *)
Definition lift_files {A} (f : gmap string string) (r : res (A * world))
  : res (A * world) :=
  match r with
  | Ok (a, w) => Ok (a, set_files f w)
  | Raise e => Raise e
  end.

Definition ignores_files (St : Type) `{Storage St} : Prop :=
  forall (c : storage_call) (s : St) w f,
    plain_call c s (set_files f w) = lift_files f (plain_call c s w).

(** The table names of a state: none when it is absent, the keys when it
    is a dictionary. *)
Definition keys_of (v : value) : option (gset string) :=
  match v with
  | VNone => Some ∅
  | VDict items => Some (list_to_set (map fst items))
  | _ => None
  end.

(** In-place changes of a dictionary by a client. *)
Inductive dict_op : Type :=
| SetItem (k : string) (x : pyval)
| DelItem (k : string).

Definition run_dict_op (d : pyval) (o : dict_op) : M unit :=
  match o with
  | SetItem k x => py_setitem d k x
  | DelItem k => py_delitem d k
  end.

Fixpoint run_dict_ops (d : pyval) (ops : list dict_op) : M unit :=
  match ops with
  | [] => ret tt
  | o :: r => let* _ := run_dict_op d o in run_dict_ops d r
  end.

(** The entries of a dictionary after the changes [ops], or [None] when one
    of them deletes a key that is not there at that point. *)
Fixpoint dict_after (ops : list dict_op) (items : list (string * pyval))
  : option (list (string * pyval)) :=
  match ops with
  | [] => Some items
  | SetItem k x :: r => dict_after r (dict_set k x items)
  | DelItem k :: r =>
      if dict_mem k items then dict_after r (dict_del k items) else None
  end.

(** The writes that reach the wrapped storage when the states [ds] are
    written through a caching middleware with threshold [T] whose counter
    is at [c]. *)
Fixpoint flushed (T c : nat) (ds : list pyval) : list pyval :=
  match ds with
  | [] => []
  | d :: r =>
      if (T <=? S c)%nat then d :: flushed T 0 r else flushed T (S c) r
  end.

(** * Properties *)

(** *** [reify] is stable under more fuel and under allocation *)

Lemma vdepth_dict items :
  vdepth (VDict items) = S (depth_with (fun kx => vdepth kx.2) items).
Proof.
  simpl. f_equal. induction items as [|[k x] r IH]; simpl; [done|].
  by rewrite IH.
Qed.

Lemma vdepth_list items : vdepth (VList items) = S (depth_with vdepth items).
Proof.
  reflexivity.
Qed.

Lemma vdepth_tuple items : vdepth (VTuple items) = S (depth_with vdepth items).
Proof.
  reflexivity.
Qed.

Lemma obj_value_impl (f g : pyval -> option value) o v :
  (forall x y, f x = Some y -> g x = Some y) ->
  obj_value f o = Some v -> obj_value g o = Some v.
Proof.
  intros Hfg. destruct o as [items|items|items]; simpl;
    intros Hx; apply fmap_Some in Hx as (ys & Hm & ->);
    apply fmap_Some; eexists; (split; [|done]);
    apply mapM_Some in Hm; apply mapM_Some;
    (eapply Forall2_impl; [exact Hm|]); simpl; intros a b Hab.
  - apply fmap_Some in Hab as (y & Hy & ->). apply fmap_Some.
    exists y. split; [by apply Hfg|done].
  - by apply Hfg.
  - by apply Hfg.
Qed.

Lemma reify_fuel n m h v x :
  n <= m -> reify n h v = Some x -> reify m h v = Some x.
Proof.
  revert m v x. induction n as [|n IH]; intros m [] x Hle; simpl; try done;
    destruct m as [|m]; simpl; try done; try lia.
  destruct (h !! l) as [o|]; [|done].
  apply obj_value_impl. intros a b. apply IH. lia.
Qed.

Lemma reify_app n h h' v x :
  reify n h v = Some x -> reify n (h ++ h') v = Some x.
Proof.
  revert v x. induction n as [|n IH]; intros [] x; simpl; try done.
  destruct (h !! l) as [o|] eqn:Hl; [|done].
  rewrite (lookup_app_l_Some _ _ _ _ Hl).
  apply obj_value_impl. intros a b. apply IH.
Qed.

Lemma set_heap_id w : set_heap (heap w) w = w.
Proof. by destruct w. Qed.

Lemma build_items_spec items :
  Forall (fun kx => build_ok kx.2) items ->
  forall w, exists items' h',
    build_items items w = Ok (items', set_heap (heap w ++ h') w) /\
    (forall n, depth_with (fun kx => vdepth kx.2) items <= n ->
       Forall2 (fun ky kx => pair ky.1 <$> reify n (heap w ++ h') ky.2 = Some kx)
               items' items) /\
    depth_with (fun kx => vdepth kx.2) items <= length h'.
Proof.
  induction 1 as [|[k x] r Hx _ IH]; intros w.
  - exists [], []. rewrite app_nil_r, set_heap_id. repeat split; [|simpl; lia].
    intros. constructor.
  - destruct (Hx w) as (x' & h1 & Hb & Hr & Hd).
    destruct (IH (set_heap (heap w ++ h1) w)) as (r' & h2 & Hbs & Hrs & Hds).
    simpl in Hb, Hr, Hd, Hbs, Hrs. exists ((k, x') :: r'), (h1 ++ h2)%list.
    rewrite app_assoc. split; [|split].
    + simpl. unfold bind at 1. rewrite Hb. unfold bind at 1. by rewrite Hbs.
    + simpl. intros n Hn. constructor.
      * simpl. erewrite reify_fuel; [done| |by apply reify_app]. lia.
      * apply Hrs. lia.
    + simpl. rewrite length_app. lia.
Qed.

Lemma build_elems_spec items :
  Forall build_ok items ->
  forall w, exists items' h',
    build_elems items w = Ok (items', set_heap (heap w ++ h') w) /\
    (forall n, depth_with vdepth items <= n ->
       Forall2 (fun y x => reify n (heap w ++ h') y = Some x) items' items) /\
    depth_with vdepth items <= length h'.
Proof.
  induction 1 as [|x r Hx _ IH]; intros w.
  - exists [], []. rewrite app_nil_r, set_heap_id. repeat split; [|simpl; lia].
    intros. constructor.
  - destruct (Hx w) as (x' & h1 & Hb & Hr & Hd).
    destruct (IH (set_heap (heap w ++ h1) w)) as (r' & h2 & Hbs & Hrs & Hds).
    simpl in Hbs, Hrs. exists (x' :: r'), (h1 ++ h2)%list.
    rewrite app_assoc. split; [|split].
    + simpl. unfold bind at 1. rewrite Hb. unfold bind at 1. by rewrite Hbs.
    + simpl. intros n Hn. constructor.
      * eapply reify_fuel; [|by apply reify_app]. lia.
      * apply Hrs. lia.
    + simpl. rewrite length_app. lia.
Qed.

Lemma build_spec v : build_ok v.
Proof.
  induction v as [| | | |items IH|items IH|items IH] using value_nested_ind;
    try (intros w; eexists _, []; rewrite app_nil_r, set_heap_id;
         split; [reflexivity|split; [reflexivity|simpl; lia]]).
  - intros w. destruct (build_items_spec items IH w) as (items' & h1 & Hb & Hr & Hd).
    exists (PRef (length (heap w ++ h1))), (h1 ++ [ODict items'])%list.
    rewrite vdepth_dict, app_assoc. split; [|split].
    + change (build (VDict items)) with
        (let* items' := build_items items in alloc (ODict items')).
      unfold bind. by rewrite Hb.
    + simpl. rewrite lookup_app_r, Nat.sub_diag by lia. simpl.
      apply fmap_Some. exists items. split; [|done].
      apply mapM_Some. eapply Forall2_impl; [apply (Hr _ (le_n _))|].
      simpl. intros ky kx Hk. apply fmap_Some in Hk as (y & Hy & ->).
      apply fmap_Some. exists y. split; [by apply reify_app|done].
    + rewrite length_app. simpl. lia.
  - intros w. destruct (build_elems_spec items IH w) as (items' & h1 & Hb & Hr & Hd).
    exists (PRef (length (heap w ++ h1))), (h1 ++ [OList items'])%list.
    rewrite vdepth_list, app_assoc. split; [|split].
    + change (build (VList items)) with
        (let* items' := build_elems items in alloc (OList items')).
      unfold bind. by rewrite Hb.
    + simpl. rewrite lookup_app_r, Nat.sub_diag by lia. simpl.
      apply fmap_Some. exists items. split; [|done].
      apply mapM_Some. eapply Forall2_impl; [apply (Hr _ (le_n _))|].
      simpl. intros y x Hy. by apply reify_app.
    + rewrite length_app. simpl. lia.
  - intros w. destruct (build_elems_spec items IH w) as (items' & h1 & Hb & Hr & Hd).
    exists (PRef (length (heap w ++ h1))), (h1 ++ [OTuple items'])%list.
    rewrite vdepth_tuple, app_assoc. split; [|split].
    + change (build (VTuple items)) with
        (let* items' := build_elems items in alloc (OTuple items')).
      unfold bind. by rewrite Hb.
    + simpl. rewrite lookup_app_r, Nat.sub_diag by lia. simpl.
      apply fmap_Some. exists items. split; [|done].
      apply mapM_Some. eapply Forall2_impl; [apply (Hr _ (le_n _))|].
      simpl. intros y x Hy. by apply reify_app.
    + rewrite length_app. simpl. lia.
Qed.

(** The object returned by [build v] has value [v], and the store only
    grew. *)
Lemma build_deep v w :
  exists r h',
    build v w = Ok (r, set_heap (heap w ++ h') w) /\
    deep (heap w ++ h') r = Some v.
Proof.
  destruct (build_spec v w) as (r & h' & Hb & Hr & Hd).
  exists r, h'. split; [done|]. unfold deep.
  eapply reify_fuel; [|exact Hr]. rewrite length_app. lia.
Qed.

(** Allocation does not change the value of what was already there. *)
Lemma deep_app h h' v x : deep h v = Some x -> deep (h ++ h') v = Some x.
Proof.
  unfold deep. intros H. eapply reify_fuel; [|by apply reify_app].
  rewrite length_app. lia.
Qed.


(** ** The memory backend *)

(** A shallow copy has the value of the original at the time of the
    copy. *)
Lemma deep_copy h l o v :
  h !! l = Some o ->
  deep h (PRef l) = Some v ->
  deep (h ++ [o]) (PRef (length h)) = Some v.
Proof.
  unfold deep. simpl. intros -> Hv.
  rewrite lookup_app_r, Nat.sub_diag by lia. simpl.
  revert Hv. apply obj_value_impl. intros x y Hxy.
  eapply reify_fuel; [|by apply reify_app]. rewrite length_app. lia.
Qed.

(** [begin_transaction] on a storage holding a dictionary: it succeeds
    whatever [_transaction_backup] held, only allocates, and the new
    snapshot has the value of the state. *)
Lemma memory_begin_spec self w l items v :
  memory self = PRef l ->
  heap w !! l = Some (ODict items) ->
  deep (heap w) (PRef l) = Some v ->
  exists b h',
    Memory.begin_transaction self w =
      Ok ({| memory := PRef l; _transaction_backup := PRef b |},
          set_heap (heap w ++ h') w) /\
    deep (heap w ++ h') (PRef b) = Some v.
Proof.
  intros Hm Hl Hv. unfold Memory.begin_transaction, bind. simpl.
  unfold MemoryStorage_read, ret. rewrite Hm. simpl.
  unfold bind, load. rewrite Hl. unfold ret.
  destruct items as [|kx items].
  - (* an empty dictionary is falsy: [{}] is built and copied *)
    simpl. unfold bind, load. simpl.
    rewrite lookup_app_r, Nat.sub_diag by lia. simpl.
    exists (length (heap w ++ [ODict []])), [ODict []; ODict []].
    split.
    + unfold alloc, set_heap. simpl. by rewrite <- app_assoc.
    + unfold deep in Hv. simpl in Hv. rewrite Hl in Hv. simpl in Hv.
      injection Hv as <-.
      unfold deep. simpl.
      rewrite (lookup_app_r (heap w)) by (rewrite length_app; simpl; lia).
      rewrite length_app. simpl.
      by replace (length (heap w) + 1 - length (heap w)) with 1 by lia.
  - simpl. unfold bind, load. rewrite Hl.
    exists (length (heap w)), [ODict (kx :: items)]. split; [done|].
    by apply (deep_copy _ l).
Qed.

(** The snapshot is an object the call has made: it is none of the objects
    that were there, the state in particular, and it holds the entries the
    state has at that moment. *)
Lemma memory_begin_new_copy self w l items v :
  memory self = PRef l ->
  heap w !! l = Some (ODict items) ->
  deep (heap w) (PRef l) = Some v ->
  exists b h',
    Memory.begin_transaction self w =
      Ok ({| memory := PRef l; _transaction_backup := PRef b |},
          set_heap (heap w ++ h') w) /\
    b <> l /\
    length (heap w) <= b /\
    (heap w ++ h')%list !! b = Some (ODict items) /\
    deep (heap w ++ h') (PRef b) = Some v.
Proof.
  intros Hm Hl Hv.
  assert (l < length (heap w)) as Hlt by by eapply lookup_lt_Some.
  destruct (memory_begin_spec self w l items v Hm Hl Hv) as (b & h' & Hb & Hd).
  exists b, h'. split; [done|].
  revert Hb. unfold Memory.begin_transaction, bind. simpl.
  unfold MemoryStorage_read, ret. rewrite Hm. simpl.
  unfold bind, load. rewrite Hl. unfold ret.
  destruct items as [|kx items].
  - simpl. unfold bind, load. simpl.
    rewrite lookup_app_r, Nat.sub_diag by lia. simpl.
    unfold alloc, set_heap. simpl. rewrite <- app_assoc. simpl.
    intros [= <- Hh]. apply app_inv_head in Hh as <-.
    rewrite length_app in *. simpl in *.
    split; [lia|]. split; [lia|]. split; [|done].
    rewrite lookup_app_r by lia.
    by replace (length (heap w) + 1 - length (heap w)) with 1 by lia.
  - simpl. unfold bind, load. rewrite Hl.
    unfold alloc, set_heap. simpl.
    intros [= <- Hh]. apply app_inv_head in Hh as <-.
    split; [lia|]. split; [lia|]. split; [|done].
    by rewrite lookup_app_r, Nat.sub_diag by lia.
Qed.

(** ** The file backend *)

Section file_backend.
Context {codec : JsonCodec}.

Lemma copyfile_spec src dst c w :
  src <> dst ->
  files w !! src = Some c ->
  copyfile src dst w = Ok (tt, set_files (<[dst := c]> (files w)) w).
Proof.
  intros Hne Hc. unfold copyfile.
  destruct (String.eqb_spec src dst) as [|_]; [done|].
  unfold bind, read_text. by rewrite Hc.
Qed.

(** What [read()] returns is determined by the text of the file. *)
Lemma json_read_value (self : ExtendedJSONStorage) w c :
  files w !! _handle_name self = Some c ->
  read_value self w = decode c.
Proof.
  intros Hc. unfold read_value, decode. simpl.
  unfold JSONStorage_read, bind, read_text. rewrite Hc.
  destruct (String.eqb c EmptyString); [done|].
  destruct (loads c) as [v|]; [|done].
  destruct (build_deep v w) as (r & h' & -> & Hd). simpl. by rewrite Hd.
Qed.

Lemma json_write_spec (self : ExtendedJSONStorage) d v w :
  deep (heap w) d = Some v ->
  write d self w =
    Ok (self, set_files (<[_handle_name self := dumps v]> (files w)) w).
Proof.
  intros Hd. simpl. unfold JSONStorage_write, bind, json_dump. by rewrite Hd.
Qed.

(** A sequence of writes only touches the primary file. *)
Lemma json_writes_spec (self : ExtendedJSONStorage) ws w :
  Forall (fun d => is_Some (deep (heap w) d)) ws ->
  exists f,
    iterM write ws self w = Ok (self, set_files f w) /\
    (forall p, p <> _handle_name self -> f !! p = files w !! p) /\
    (is_Some (files w !! _handle_name self) -> is_Some (f !! _handle_name self)).
Proof.
  revert w. induction ws as [|d ws IH]; intros w Hws.
  - exists (files w). by destruct w.
  - apply Forall_cons in Hws as [[v Hv] Hws].
    destruct (IH (set_files (<[_handle_name self := dumps v]> (files w)) w) Hws)
      as (f & Hrun & Hother & Hsome).
    exists f. split; [|split].
    + cbn [iterM]. unfold bind at 1. rewrite (json_write_spec _ _ v) by done.
      exact Hrun.
    + intros p Hp. rewrite Hother by done. simpl. by rewrite lookup_insert_ne.
    + intros _. apply Hsome. simpl. rewrite lookup_insert_eq. by eexists.
Qed.


End file_backend.

Lemma string_length_app (a b : string) :
  String.length (a +:+ b) = String.length a + String.length b.
Proof. induction a as [|c a IH]; simpl; [done|]. by rewrite IH. Qed.

(** A storage made by [__init__] has its database file, and a shadow path
    different from it. *)
Lemma json_init_spec path w :
  exists self w',
    ExtendedJSONStorage_init path w = Ok (self, w') /\
    _handle_name self = path /\
    is_Some (files w' !! path) /\
    _transaction_backup_path self <> _handle_name self.
Proof.
  assert (path +:+ ".bak" <> path) as Hne.
  { intros Heq. apply (f_equal String.length) in Heq.
    rewrite string_length_app in Heq. simpl in Heq. lia. }
  unfold ExtendedJSONStorage_init, bind, path_exists.
  destruct (files w !! path) eqn:Hp; simpl.
  - eexists _, _. split; [reflexivity|]. simpl. by rewrite Hp.
  - eexists _, _. split; [reflexivity|]. simpl. by rewrite lookup_insert_eq.
Qed.

(** ** Transactions *)

Section transactions.
Context {codec : JsonCodec}.


(** Writes to the memory backend replace [memory] and nothing else. *)
Lemma memory_writes_spec ws (self : ExtendedMemoryStorage) w :
  exists d,
    iterM write ws self w =
      Ok ({| memory := d; _transaction_backup := _transaction_backup self |}, w).
Proof.
  revert self. induction ws as [|x ws IH]; intros self.
  - exists (memory self). by destruct self.
  - destruct (IH {| memory := x;
                    _transaction_backup := _transaction_backup self |})
      as (d & Hd).
    exists d. exact Hd.
Qed.

(** On the memory backend a rollback restores the value the state had at
    [begin_transaction] when the writes in between only replace the state
    and leave the objects of the old state alone. *)
Lemma memory_rollback_restores self w l items v ws :
  memory self = PRef l ->
  heap w !! l = Some (ODict items) ->
  deep (heap w) (PRef l) = Some v ->
  observe (let* s := begin_transaction self in
           let* s := iterM write ws s in
           rollback_transaction s) w = Ok v.
Proof.
  intros Hm Hl Hv.
  destruct (memory_begin_spec self w l items v Hm Hl Hv) as (b & h' & Hb & Hd).
  unfold observe, bind. simpl. rewrite Hb.
  destruct (memory_writes_spec ws
              {| memory := PRef l; _transaction_backup := PRef b |}
              (set_heap (heap w ++ h') w)) as (d & Hws).
  simpl in Hws. rewrite Hws. simpl.
  unfold read_value. simpl. by rewrite Hd.
Qed.

(** On the file backend a rollback restores the text of the primary file,
    whatever was written in between. *)
Lemma json_rollback_restores (self : ExtendedJSONStorage) w c ws :
  files w !! _handle_name self = Some c ->
  _transaction_backup_path self <> _handle_name self ->
  Forall (fun d => is_Some (deep (heap w) d)) ws ->
  exists w',
    (let* s := begin_transaction self in
     let* s := iterM write ws s in
     rollback_transaction s) w = Ok (self, w') /\
    files w' !! _handle_name self = Some c /\
    files w' !! _transaction_backup_path self = None /\
    read_value self w' = read_value self w.
Proof.
  intros Hc Hne Hws. unfold bind. simpl. unfold Json.begin_transaction, bind.
  rewrite (copyfile_spec _ _ c) by done. unfold ret.
  set (w1 := set_files _ w).
  destruct (json_writes_spec self ws w1 Hws) as (f & Hrun & Hother & _).
  simpl in Hrun. rewrite Hrun. clear Hrun.
  assert (f !! _transaction_backup_path self = Some c) as Hbak.
  { rewrite Hother by done. subst w1. simpl. apply lookup_insert_eq. }
  unfold Json.rollback_transaction, bind, path_exists. simpl. rewrite Hbak.
  rewrite (copyfile_spec _ _ c) by done.
  unfold os_remove. simpl. rewrite lookup_insert_ne, Hbak by done.
  eexists. split; [reflexivity|]. simpl.
  assert (delete (_transaction_backup_path self)
            (<[_handle_name self:=c]> f) !! _handle_name self = Some c) as Hfin.
  { by rewrite lookup_delete_ne, lookup_insert_eq. }
  split; [done|]. split; [by rewrite lookup_delete_eq|].
  by rewrite (json_read_value _ _ c), (json_read_value _ _ c).
Qed.

End transactions.

(** ** Rollback (C1) *)

(** C1. The claim: after [begin_transaction] and any writes,
    [rollback_transaction] makes [read()] return the state that was current
    at [begin_transaction], on both backends.  The memory backend takes its
    snapshot with [dict.copy()], which shares the nested tables and
    documents with the live state; for the client that updates a document in
    place between [read()] and [write()], the rollback on the memory backend
    returns the updated document, not the state before the transaction.  The
    same client on the file backend gets the old state back. *)
Theorem memory_rollback_keeps_nested_update :
  observe ex_memory empty_world = Ok ex_state /\
  observe ex_rollback_memory empty_world =
    Ok (VDict [("t", VDict [("1", VDict [("n", VInt 2)])])]) /\
  observe (H := JSONStorage_Storage (codec := MiniJson.codec))
    ex_rollback_json empty_world = Ok ex_state.
Proof. repeat split; vm_compute; reflexivity. Qed.

(** The copy does protect the top level of the state: a table added in
    place during the transaction is gone after the rollback. *)
Example memory_rollback_undoes_top_level_update :
  observe ex_rollback_memory_top_level empty_world = Ok ex_state.
Proof. vm_compute. reflexivity. Qed.

(** ** Nested transactions (C3) *)

(** C3, as stated, fails: a second [begin_transaction] raises nothing on
    either backend. *)
Lemma second_begin_does_not_fail :
  succeeded (ex_begin_twice_memory empty_world) = true /\
  succeeded (ex_begin_twice_json empty_world) = true.
Proof. split; vm_compute; reflexivity. Qed.

(** C3, amended: [begin_transaction] succeeds whether or not a transaction
    is open.  On the memory backend it replaces the snapshot by a new copy
    of the current state: a dictionary the call has allocated, which is
    neither the state nor any object that existed before (the old snapshot
    included), and which holds the entries and so the value of the current
    state; on the file backend it overwrites the shadow file with the
    current text of the primary file. *)
Theorem begin_transaction_again {codec : JsonCodec}
  (m : ExtendedMemoryStorage) (j : ExtendedJSONStorage) (w : world)
  (l : loc) (items : list (string * pyval)) (v : value) (c : string) :
  memory m = PRef l ->
  heap w !! l = Some (ODict items) ->
  deep (heap w) (PRef l) = Some v ->
  files w !! _handle_name j = Some c ->
  _transaction_backup_path j <> _handle_name j ->
  (exists b h',
     begin_transaction m w =
       Ok ({| memory := PRef l; _transaction_backup := PRef b |},
           set_heap (heap w ++ h') w) /\
     b <> l /\
     length (heap w) <= b /\
     (heap w ++ h')%list !! b = Some (ODict items) /\
     deep (heap w ++ h') (PRef b) = Some v) /\
  begin_transaction j w =
    Ok (j, set_files (<[_transaction_backup_path j := c]> (files w)) w).
Proof.
  intros Hm Hl Hv Hc Hne. split.
  - by apply (memory_begin_new_copy m w l items v).
  - simpl. unfold Json.begin_transaction, bind.
    by rewrite (copyfile_spec _ _ c).
Qed.

(** A second [begin_transaction] on storages with a transaction open. *)
Lemma begin_transaction_again_witness :
  let m := {| memory := PRef 0; _transaction_backup := PRef 1 |} in
  let j := {| _handle_name := "db.json";
              _transaction_backup_path := "db.json.bak" |} in
  let w := {| heap := [ODict [("t", PInt 1)]; ODict [("t", PInt 0)]];
              files := {[ "db.json" := "{}"; "db.json.bak" := "[]" ]} |} in
  (exists b h',
     begin_transaction (ExtendedStorage := ExtendedMemoryStorage_Extended (codec := MiniJson.codec)) m w =
       Ok ({| memory := PRef 0; _transaction_backup := PRef b |},
           set_heap (heap w ++ h') w) /\
     b <> 0 /\
     length (heap w) <= b /\
     (heap w ++ h')%list !! b = Some (ODict [("t", PInt 1)]) /\
     deep (heap w ++ h') (PRef b) = Some (VDict [("t", VInt 1)])) /\
  begin_transaction (ExtendedStorage := ExtendedJSONStorage_Extended (codec := MiniJson.codec)) j w =
    Ok (j, set_files (<["db.json.bak" := "{}"]> (files w)) w).
Proof.
  intros m j w.
  apply (begin_transaction_again (codec := MiniJson.codec) m j w 0
           [("t", PInt 1)] (VDict [("t", VInt 1)]) "{}").
  - reflexivity.
  - reflexivity.
  - reflexivity.
  - vm_compute. reflexivity.
  - discriminate.
Defined.

(** ** Commit (C4) *)



(** ** Backup and restore (C5, C9) *)

(** C5, as stated, fails on the memory backend: a state with a tuple in a
    document comes back from [backup]; [write({})]; [restore] with a list
    in the tuple's place, and in Python [(1, 2) == [1, 2]] is false. *)
Lemma backup_restore_changes_tuple :
  observe ex_memory_tuple empty_world = Ok ex_tuple_state /\
  observe ex_backup_restore_tuple empty_world = Ok ex_tuple_state_loaded /\
  ex_tuple_state_loaded <> ex_tuple_state.
Proof. repeat split; [vm_compute; reflexivity..|discriminate]. Qed.

(** A state that contains itself cannot be backed up at all: [json.dump]
    raises [ValueError]. *)
Example backup_of_circular_state :
  ex_backup_circular empty_world = Raise ValueError.
Proof. vm_compute. reflexivity. Qed.

(** C5, amended.  After [backup(p); write(S3); restore(p)] on the memory
    backend, [read()] returns what [json.load] makes of the [json.dump] of
    the state held at the backup ([v'] below), for every state [json.dump]
    can write; that is the state itself for the states that JSON hands back
    unchanged ([v' = v]).  On the file backend the text of the database
    file, and so what [read()] returns, is that of the time of the backup;
    there [p] is a path other than the database file, which [copyfile]
    refuses to copy onto itself. *)
Theorem backup_restore_round_trip {codec : JsonCodec}
  (m : ExtendedMemoryStorage) (j : ExtendedJSONStorage) (w : world)
  (p : string) (v v' : value) (S3 : pyval) (v3 : value) (c : string) :
  memory m <> PNone ->
  deep (heap w) (memory m) = Some v ->
  loads (dumps v) = Some v' ->
  deep (heap w) S3 = Some v3 ->
  files w !! _handle_name j = Some c ->
  p <> _handle_name j ->
  (exists m' w',
     (let* s := backup p m in
      let* s := write S3 s in
      restore p s) w = Ok (m', w') /\
     files w' !! p = Some (dumps v) /\
     read_value m' w' = Ok v') /\
  (exists w',
     (let* s := backup p j in
      let* s := write S3 s in
      restore p s) w = Ok (j, w') /\
     files w' !! _handle_name j = Some c /\
     read_value j w' = read_value j w).
Proof.
  intros Hm Hv Hrt HS3 Hc Hne. split.
  - unfold bind. simpl. unfold Memory.backup, bind. simpl.
    unfold MemoryStorage_read, ret.
    assert (json_dump (memory m) p w =
              Ok (tt, set_files (<[p := dumps v]> (files w)) w)) as Hdump.
    { unfold json_dump. by rewrite Hv. }
    destruct (memory m) as [| | | |l] eqn:Hmem; try done;
      rewrite Hdump; simpl;
      unfold Memory.restore, bind, path_exists; simpl;
      rewrite lookup_insert_eq;
      unfold json_load, bind, read_text; simpl;
      rewrite lookup_insert_eq, Hrt;
      match goal with
      | |- context [build v' ?w1] =>
          destruct (build_deep v' w1) as (r & h' & -> & Hd)
      end;
      simpl in Hd; simpl; eexists _, _; (split; [reflexivity|]);
      (split; [simpl; by rewrite lookup_insert_eq|]);
      unfold read_value; simpl; by rewrite Hd.
  - unfold bind. simpl. unfold Json.backup, bind.
    rewrite (copyfile_spec _ _ c) by done. unfold ret.
    unfold JSONStorage_write, bind, json_dump. simpl. rewrite HS3. simpl.
    unfold Json.restore, bind.
    rewrite (copyfile_spec _ _ c); [|done|].
    2:{ simpl. by rewrite lookup_insert_ne, lookup_insert_eq. }
    simpl. eexists. split; [reflexivity|]. simpl.
    split; [by rewrite lookup_insert_eq|].
    rewrite (json_read_value _ _ c), (json_read_value _ _ c); [done|done|].
    simpl. by rewrite lookup_insert_eq.
Qed.

(** A backup, a write of [{}] and a restore, on each backend. *)
Lemma backup_restore_round_trip_witness :
  let m := {| memory := PRef 0; _transaction_backup := PNone |} in
  let j := {| _handle_name := "db.json";
              _transaction_backup_path := "db.json.bak" |} in
  let w := {| heap := [ODict [("t", PInt 1)]; ODict []];
              files := {[ "db.json" := "[7]" ]} |} in
  (exists m' w',
     (let* s := backup (ExtendedStorage := ExtendedMemoryStorage_Extended (codec := MiniJson.codec)) "backup.json" m in
      let* s := write (PRef 1) s in
      restore (ExtendedStorage := ExtendedMemoryStorage_Extended (codec := MiniJson.codec)) "backup.json" s) w = Ok (m', w') /\
     files w' !! "backup.json" =
       Some (dumps (JsonCodec := MiniJson.codec) (VDict [("t", VInt 1)])) /\
     read_value m' w' = Ok (VDict [("t", VInt 1)])) /\
  (exists w',
     (let* s := backup (ExtendedStorage := ExtendedJSONStorage_Extended (codec := MiniJson.codec)) "backup.json" j in
      let* s := write (Storage := JSONStorage_Storage (codec := MiniJson.codec)) (PRef 1) s in
      restore (ExtendedStorage := ExtendedJSONStorage_Extended (codec := MiniJson.codec)) "backup.json" s) w = Ok (j, w') /\
     files w' !! "db.json" = Some "[7]" /\
     read_value (H := JSONStorage_Storage (codec := MiniJson.codec)) j w' =
       read_value (H := JSONStorage_Storage (codec := MiniJson.codec)) j w).
Proof.
  intros m j w.
  apply (backup_restore_round_trip (codec := MiniJson.codec) m j w
           "backup.json" (VDict [("t", VInt 1)]) (VDict [("t", VInt 1)])
           (PRef 1) (VDict []) "[7]").
  - discriminate.
  - reflexivity.
  - vm_compute. reflexivity.
  - reflexivity.
  - vm_compute. reflexivity.
  - discriminate.
Defined.

(** C9, as stated, fails: on a memory storage nothing was written to,
    [backup('backup.json')] returns normally and no file exists
    afterwards. *)
Lemma backup_absent_state_no_failure :
  ex_backup_absent empty_world =
    Ok ({| memory := PNone; _transaction_backup := PNone |}, empty_world).
Proof. reflexivity. Qed.

(** C9, amended: with no state, [backup(path)] does not fail.  On the
    memory backend the guard [if data is not None] skips the dump, so the
    call returns without creating or changing any file; on the file backend
    the empty database file is copied to [path]. *)
Theorem backup_of_absent_state {codec : JsonCodec}
  (m : ExtendedMemoryStorage) (j : ExtendedJSONStorage) (w : world)
  (p : string) :
  memory m = PNone ->
  files w !! _handle_name j = Some EmptyString ->
  p <> _handle_name j ->
  backup p m w = Ok (m, w) /\
  read_value j w = Ok VNone /\
  backup p j w = Ok (j, set_files (<[p := EmptyString]> (files w)) w).
Proof.
  intros Hm Hc Hne. split; [|split].
  - simpl. unfold Memory.backup, bind. simpl.
    unfold MemoryStorage_read, ret. by rewrite Hm.
  - by rewrite (json_read_value _ _ EmptyString).
  - simpl. unfold Json.backup, bind.
    by rewrite (copyfile_spec _ _ EmptyString).
Qed.

(** A backup of a memory storage and of a file storage that hold nothing. *)
Lemma backup_of_absent_state_witness :
  let m := {| memory := PNone; _transaction_backup := PNone |} in
  let j := {| _handle_name := "db.json";
              _transaction_backup_path := "db.json.bak" |} in
  let w := {| heap := []; files := {[ "db.json" := EmptyString ]} |} in
  backup (ExtendedStorage := ExtendedMemoryStorage_Extended (codec := MiniJson.codec)) "backup.json" m w = Ok (m, w) /\
  read_value (H := JSONStorage_Storage (codec := MiniJson.codec)) j w = Ok VNone /\
  backup (ExtendedStorage := ExtendedJSONStorage_Extended (codec := MiniJson.codec)) "backup.json" j w =
    Ok (j, set_files (<["backup.json" := EmptyString]> (files w)) w).
Proof.
  intros m j w.
  apply (backup_of_absent_state (codec := MiniJson.codec) m j w "backup.json").
  - reflexivity.
  - vm_compute. reflexivity.
  - discriminate.
Defined.

(** ** Schema validation (C10) *)

Lemma set_schema_other {St} (calls : list (string * pyval)) t (db : TinyDB St) :
  Forall (fun c => c.1 <> t) calls ->
  _schemas db !! t = None ->
  _schemas (foldl (fun db c => Facade.set_schema c.1 c.2 db) db calls) !! t
    = None.
Proof.
  revert db. induction calls as [|[n sc] calls IH]; intros db Hall Hdb.
  - done.
  - apply Forall_cons in Hall as [Hn Hall]. simpl. apply IH; [done|].
    simpl. by rewrite lookup_insert_ne.
Qed.

(** C10. On a database where no schema was ever set for the table -- a new
    [TinyDB] after any calls of [set_schema] for other tables --
    [validate_document] returns [True] for every document: the lookup
    defaults to a new empty dictionary and the check over its keys is
    vacuous. *)
Theorem validate_document_without_schema {St}
  (s : St) (calls : list (string * pyval)) (table_name : string)
  (document : pyval) (w : world) :
  Forall (fun c => c.1 <> table_name) calls ->
  Facade.validate_document table_name document
    (foldl (fun db c => Facade.set_schema c.1 c.2 db)
       {| _storage := s; _opened := true; _schemas := ∅ |} calls) w
  = Ok (true, set_heap (heap w ++ [ODict []]) w).
Proof.
  intros Hall. unfold Facade.validate_document, bind, alloc.
  rewrite set_schema_other by done.
  unfold py_keys, bind, load. simpl.
  by rewrite lookup_app_r, Nat.sub_diag by lia.
Qed.

(** With a schema for ['test'] only, even the document [3] is valid for
    ['users']. *)
Lemma validate_document_without_schema_witness :
  Facade.validate_document "users" (PInt 3)
    (foldl (fun db c => Facade.set_schema c.1 c.2 db)
       {| _storage := tt; _opened := true; _schemas := ∅ |}
       [("test", PRef 0)])
    {| heap := [ODict [("name", PStr "str"); ("age", PStr "int")]];
       files := ∅ |}
  = Ok (true,
        {| heap := [ODict [("name", PStr "str"); ("age", PStr "int")];
                    ODict []];
           files := ∅ |}).
Proof.
  apply (validate_document_without_schema tt [("test", PRef 0)] "users"
           (PInt 3)).
  repeat constructor. discriminate.
Defined.

(** ** The caching middleware *)

Section caching.
Context {St : Type} `{Storage St}.

Implicit Types (m : CachingMiddleware St) (w : world).

(** [read] with a buffer: the buffer is returned; neither the middleware,
    nor the wrapped storage, nor the world changes. *)
Lemma caching_read_populated m w :
  populated m -> Caching.read m w = Ok ((cache m, m), w).
Proof.
  unfold populated, Caching.read. by destruct (cache m).
Qed.

(** [read] without a buffer asks the wrapped storage and keeps the
    answer. *)
Lemma caching_read_unprimed m w :
  cache m = PNone ->
  Caching.read m w =
    (let* r := read (storage m) in
     ret (r, {| storage := storage m; cache := r;
                _cache_modified_count := _cache_modified_count m;
                WRITE_CACHE_SIZE := WRITE_CACHE_SIZE m |})) w.
Proof. unfold Caching.read. by intros ->. Qed.

(** [write] below the threshold only fills the buffer. *)
Lemma caching_write_below data m w :
  S (_cache_modified_count m) < WRITE_CACHE_SIZE m ->
  Caching.write data m w =
    Ok ({| storage := storage m; cache := data;
           _cache_modified_count := S (_cache_modified_count m);
           WRITE_CACHE_SIZE := WRITE_CACHE_SIZE m |}, w).
Proof.
  intros Hlt. unfold Caching.write. simpl.
  by destruct (Nat.leb_spec (WRITE_CACHE_SIZE m) (S (_cache_modified_count m)));
    [lia|].
Qed.

(** [write] that reaches the threshold writes the new state to the wrapped
    storage and resets the counter. *)
Lemma caching_write_reach data m w :
  WRITE_CACHE_SIZE m <= S (_cache_modified_count m) ->
  Caching.write data m w =
    (let* s := write data (storage m) in
     ret {| storage := s; cache := data; _cache_modified_count := 0;
            WRITE_CACHE_SIZE := WRITE_CACHE_SIZE m |}) w.
Proof.
  intros Hle. unfold Caching.write. simpl.
  destruct (Nat.leb_spec (WRITE_CACHE_SIZE m) (S (_cache_modified_count m)));
    [|lia].
  unfold Caching.flush, Middleware.write, bind. simpl.
  by destruct (write data (storage m) w) as [[s w']|].
Qed.

Lemma caching_flush_pending m w :
  0 < _cache_modified_count m ->
  Caching.flush m w =
    (let* s := write (cache m) (storage m) in
     ret {| storage := s; cache := cache m; _cache_modified_count := 0;
            WRITE_CACHE_SIZE := WRITE_CACHE_SIZE m |}) w.
Proof.
  intros Hpos. unfold Caching.flush.
  destruct (Nat.ltb_spec 0 (_cache_modified_count m)); [|lia].
  unfold Middleware.write, bind. simpl.
  by destruct (write (cache m) (storage m) w) as [[s w']|].
Qed.

Lemma caching_flush_clean m w :
  _cache_modified_count m = 0 -> Caching.flush m w = Ok (m, w).
Proof. intros Hz. unfold Caching.flush. by rewrite Hz. Qed.

(** No call of the middleware empties a buffer. *)
Lemma run_op_populated o m w m' w' :
  writes_state o -> populated m -> run_op o m w = Ok (m', w') -> populated m'.
Proof.
  unfold populated. intros Ho Hm. destruct o as [|data|]; simpl.
  - unfold bind. rewrite caching_read_populated by done. simpl.
    intros [= <- <-]. done.
  - unfold Caching.write. simpl.
    destruct (WRITE_CACHE_SIZE m <=? S (_cache_modified_count m))%nat.
    + unfold Caching.flush. simpl. unfold Middleware.write, bind. simpl.
      destruct (write data (storage m) w) as [[s w1]|]; [|done].
      intros [= <- <-]. simpl. by destruct data.
    + intros [= <- <-]. simpl. by destruct data.
  - unfold Caching.flush.
    destruct (0 <? _cache_modified_count m)%nat.
    + unfold Middleware.write, bind. simpl.
      destruct (write (cache m) (storage m) w) as [[s w1]|]; [|done].
      by intros [= <- <-].
    + by intros [= <- <-].
Qed.

Lemma run_ops_populated ops m w m' w' :
  Forall writes_state ops -> populated m ->
  iterM run_op ops m w = Ok (m', w') -> populated m'.
Proof.
  revert m w. induction ops as [|o ops IH]; intros m w Hops Hm.
  - by intros [= <- <-].
  - apply Forall_cons in Hops as [Ho Hops]. simpl. unfold bind at 1.
    destruct (run_op o m w) as [[m1 w1]|] eqn:Hrun; [|done].
    apply IH; [done|]. by eapply run_op_populated.
Qed.

End caching.

Lemma iterM_app {A S : Type} (f : A -> S -> M S) (a b : list A) (s : S) w :
  iterM f (a ++ b) s w = (let* s1 := iterM f a s in iterM f b s1) w.
Proof.
  revert s w. induction a as [|x a IH]; intros s w; simpl.
  - done.
  - unfold bind. destruct (f x s w) as [[s1 w1]|]; [|done].
    by rewrite IH.
Qed.

Section caching_claims.
Context {St : Type} `{Storage St}.

Implicit Types (m : CachingMiddleware St) (w : world).

(** Writes that stay below the threshold: only buffer and counter change. *)
Lemma caching_writes_below (ds : list pyval) m w :
  _cache_modified_count m + length ds < WRITE_CACHE_SIZE m ->
  iterM Caching.write ds m w =
    Ok ({| storage := storage m;
           cache := default (cache m) (last ds);
           _cache_modified_count := _cache_modified_count m + length ds;
           WRITE_CACHE_SIZE := WRITE_CACHE_SIZE m |}, w).
Proof.
  revert m. induction ds as [|d ds IH]; intros m Hlt.
  - simpl. rewrite Nat.add_0_r. by destruct m.
  - simpl in Hlt. cbn [iterM]. unfold bind.
    rewrite caching_write_below by lia.
    rewrite IH by (simpl; lia). simpl.
    do 3 f_equal; [|lia].
    rewrite (last_cons d ds). by destruct (last ds).
Qed.

(** ** Reads once the buffer is populated (C6) *)

(** C6. Once the buffer holds a state, whatever the client calls next
    ([read], [write] of a state, [flush]), [read()] returns the buffer
    without touching the wrapped storage or anything else; a [write(X)], or
    a first [read()] that found a state, populates the buffer.  In
    particular [write(X)] below the threshold followed by [read()] returns
    [X] and leaves the wrapped storage as it was. *)
Theorem populated_buffer_serves_reads m (ops : list cache_op) w m' w' :
  populated m ->
  Forall writes_state ops ->
  iterM run_op ops m w = Ok (m', w') ->
  (populated m' /\ Caching.read m' w' = Ok ((cache m', m'), w')) /\
  (forall X m0 w0,
     X <> PNone ->
     S (_cache_modified_count m0) < WRITE_CACHE_SIZE m0 ->
     exists m1,
       Caching.write X m0 w0 = Ok (m1, w0) /\ populated m1 /\
       storage m1 = storage m0 /\
       Caching.read m1 w0 = Ok ((X, m1), w0)) /\
  (forall m0 w0 r m1 w1,
     Caching.read m0 w0 = Ok ((r, m1), w1) -> r <> PNone ->
     populated m1 /\ cache m1 = r).
Proof.
  intros Hm Hops Hrun. split; [|split].
  - assert (populated m') as Hm' by by eapply run_ops_populated.
    split; [done|]. by apply caching_read_populated.
  - intros X m0 w0 HX Hlt. eexists. split; [by apply caching_write_below|].
    split; [done|]. split; [done|].
    by rewrite caching_read_populated.
  - intros m0 w0 r m1 w1 Hread Hr. unfold populated.
    unfold Caching.read in Hread.
    destruct (cache m0) eqn:Hc;
      try (injection Hread as <- <- <-; by rewrite Hc).
    unfold Middleware.read, bind in Hread.
    destruct (read (storage m0) w0) as [[r0 w2]|]; [|done].
    by injection Hread as <- <- <-.
Qed.

(** ** The flush threshold (C7) *)

(** C7. A new middleware has threshold 1000 and counter 0.  A [write] that
    leaves the counter below the threshold does not touch the wrapped
    storage; the [write] with which the counter reaches the threshold
    writes the new state to the wrapped storage and resets the counter.
    So from counter 0, after threshold - 1 writes the wrapped storage is
    as before, and the next write hands the last written state to it. *)
Theorem threshold_flush m (ds : list pyval) (d : pyval) w :
  _cache_modified_count m = 0 ->
  WRITE_CACHE_SIZE m = S (length ds) ->
  iterM Caching.write ds m w =
    Ok ({| storage := storage m;
           cache := default (cache m) (last ds);
           _cache_modified_count := length ds;
           WRITE_CACHE_SIZE := WRITE_CACHE_SIZE m |}, w) /\
  iterM Caching.write (ds ++ [d]) m w =
    (let* s := write d (storage m) in
     ret {| storage := s; cache := d; _cache_modified_count := 0;
            WRITE_CACHE_SIZE := WRITE_CACHE_SIZE m |}) w /\
  (read_after_write St ->
   forall v s' w',
     deep (heap w) d = Some v ->
     write d (storage m) w = Ok (s', w') ->
     exists m',
       iterM Caching.write (ds ++ [d]) m w = Ok (m', w') /\
       _cache_modified_count m' = 0 /\
       read_value (storage m') w' = Ok v) /\
  (forall X m0 w0,
     (S (_cache_modified_count m0) < WRITE_CACHE_SIZE m0 ->
      Caching.write X m0 w0 =
        Ok ({| storage := storage m0; cache := X;
               _cache_modified_count := S (_cache_modified_count m0);
               WRITE_CACHE_SIZE := WRITE_CACHE_SIZE m0 |}, w0)) /\
     (S (_cache_modified_count m0) = WRITE_CACHE_SIZE m0 ->
      Caching.write X m0 w0 =
        (let* s := write X (storage m0) in
         ret {| storage := s; cache := X; _cache_modified_count := 0;
                WRITE_CACHE_SIZE := WRITE_CACHE_SIZE m0 |}) w0)) /\
  (forall (storage_cls : M St) s w0 w1,
     storage_cls w0 = Ok (s, w1) ->
     Caching.init storage_cls w0 =
       Ok ({| storage := s; cache := PNone; _cache_modified_count := 0;
              WRITE_CACHE_SIZE := 1000 |}, w1)).
Proof.
  intros Hz HT.
  assert (iterM Caching.write ds m w =
            Ok ({| storage := storage m;
                   cache := default (cache m) (last ds);
                   _cache_modified_count := length ds;
                   WRITE_CACHE_SIZE := WRITE_CACHE_SIZE m |}, w)) as Hbelow.
  { rewrite caching_writes_below by lia. by rewrite Hz. }
  assert (iterM Caching.write (ds ++ [d]) m w =
            (let* s := write d (storage m) in
             ret {| storage := s; cache := d; _cache_modified_count := 0;
                    WRITE_CACHE_SIZE := WRITE_CACHE_SIZE m |}) w) as Hreach.
  { rewrite iterM_app. unfold bind at 1. rewrite Hbelow. cbn [iterM].
    unfold bind at 1. rewrite caching_write_reach by (simpl; lia). simpl.
    unfold bind. by destruct (write d (storage m) w) as [[s w1]|]. }
  split; [done|]. split; [done|]. split; [|split].
  - intros Hlaw v s' w' Hv Hw. eexists. rewrite Hreach. unfold bind.
    rewrite Hw. split; [reflexivity|]. split; [done|]. simpl.
    by eapply Hlaw.
  - intros X m0 w0. split.
    + apply caching_write_below.
    + intros Heq. apply caching_write_reach. lia.
  - intros storage_cls s w0 w1 Hcls. unfold Caching.init, bind.
    by rewrite Hcls.
Qed.

(** ** Close (C8) *)

(** C8. [close()] with a pending write (counter above 0) writes the buffer
    to the wrapped storage and then closes it; with counter 0 it only
    closes it.  So after [write(X)] and [close()] the wrapped storage has
    been handed [X] before it was closed, and holds it. *)
Theorem close_flushes m (X : pyval) w :
  (0 < _cache_modified_count m ->
   Caching.close m w =
     (let* s := write (cache m) (storage m) in
      let* s := close s in
      ret {| storage := s; cache := cache m; _cache_modified_count := 0;
             WRITE_CACHE_SIZE := WRITE_CACHE_SIZE m |}) w) /\
  (_cache_modified_count m = 0 ->
   Caching.close m w =
     (let* s := close (storage m) in
      ret {| storage := s; cache := cache m; _cache_modified_count := 0;
             WRITE_CACHE_SIZE := WRITE_CACHE_SIZE m |}) w) /\
  (let* m1 := Caching.write X m in Caching.close m1) w =
    (let* s := write X (storage m) in
     let* s := close s in
     ret {| storage := s; cache := X; _cache_modified_count := 0;
            WRITE_CACHE_SIZE := WRITE_CACHE_SIZE m |}) w /\
  (read_after_write St -> close_keeps_state St ->
   forall v s1 w1 s2 w2,
     deep (heap w) X = Some v ->
     write X (storage m) w = Ok (s1, w1) ->
     close s1 w1 = Ok (s2, w2) ->
     exists m2,
       (let* m1 := Caching.write X m in Caching.close m1) w = Ok (m2, w2) /\
       storage m2 = s2 /\
       read_value (storage m2) w2 = Ok v).
Proof.
  assert (forall m0 w0, 0 < _cache_modified_count m0 ->
            Caching.close m0 w0 =
              (let* s := write (cache m0) (storage m0) in
               let* s := close s in
               ret {| storage := s; cache := cache m0;
                      _cache_modified_count := 0;
                      WRITE_CACHE_SIZE := WRITE_CACHE_SIZE m0 |}) w0)
    as Hpending.
  { intros m0 w0 Hpos. unfold Caching.close, bind at 1.
    rewrite caching_flush_pending by done. unfold bind.
    destruct (write (cache m0) (storage m0) w0) as [[s w1]|]; [|done].
    simpl. unfold Middleware.close, bind. simpl.
    by destruct (close s w1) as [[s' w2]|]. }
  assert (forall m0 w0, _cache_modified_count m0 = 0 ->
            Caching.close m0 w0 =
              (let* s := close (storage m0) in
               ret {| storage := s; cache := cache m0;
                      _cache_modified_count := 0;
                      WRITE_CACHE_SIZE := WRITE_CACHE_SIZE m0 |}) w0)
    as Hclean.
  { intros m0 w0 Hz. unfold Caching.close, bind at 1.
    rewrite caching_flush_clean by done.
    unfold Middleware.close, bind. rewrite Hz.
    by destruct (close (storage m0) w0) as [[s' w2]|]. }
  assert ((let* m1 := Caching.write X m in Caching.close m1) w =
            (let* s := write X (storage m) in
             let* s := close s in
             ret {| storage := s; cache := X; _cache_modified_count := 0;
                    WRITE_CACHE_SIZE := WRITE_CACHE_SIZE m |}) w) as Hboth.
  { unfold bind at 1.
    destruct (Nat.le_gt_cases (WRITE_CACHE_SIZE m) (S (_cache_modified_count m)))
      as [Hle|Hgt].
    - rewrite caching_write_reach by done. unfold bind.
      destruct (write X (storage m) w) as [[s w1]|]; [|done].
      unfold ret at 1. by rewrite Hclean.
    - rewrite caching_write_below by done. by rewrite Hpending by (simpl; lia). }
  split; [by apply Hpending|]. split; [by apply Hclean|]. split; [done|].
  intros Hraw Hclose v s1 w1 s2 w2 Hv Hw Hc. eexists. rewrite Hboth.
  unfold bind. rewrite Hw, Hc. split; [reflexivity|]. split; [done|]. simpl.
  rewrite (Hclose _ _ _ _ Hc). by eapply Hraw.
Qed.

(** ** Transactions and the middleware (C2) *)

(** C2, amended.  The middleware has no transaction methods: calling
    [begin_transaction], [commit_transaction] or [rollback_transaction] on
    it raises [AttributeError].  And nothing invalidates its buffer: once
    populated, [read()] returns it whatever has happened to the wrapped
    storage in the meantime, a rollback included. *)
Theorem middleware_has_no_transactions m (name : string) (args : list pyval)
  (s' : St) w w' :
  name ∈ ["begin_transaction"; "commit_transaction"; "rollback_transaction"] ->
  populated m ->
  Caching.call name args m w = Raise AttributeError /\
  Caching.read (with_storage m s') w' = Ok ((cache m, with_storage m s'), w').
Proof.
  intros Hname Hm. split.
  - repeat (apply elem_of_cons in Hname as [->|Hname]; [done|]).
    by apply elem_of_nil in Hname.
  - by rewrite caching_read_populated.
Qed.

End caching_claims.

(** C2, as stated, fails: [rollback_transaction()] on the middleware raises
    [AttributeError]; and when the wrapped storage is rolled back directly,
    [read()] through the middleware still returns the buffered [{}] while
    the wrapped storage holds the state from before the transaction. *)
Lemma rollback_through_cache_not_supported :
  outcome (ex_rollback_through_cache empty_world) = Raise AttributeError /\
  outcome (ex_stale_after_rollback empty_world) = Ok (VDict [], ex_state).
Proof. split; vm_compute; reflexivity. Qed.

(** A middleware with a populated buffer, asked to roll back. *)
Lemma middleware_has_no_transactions_witness :
  let m := {| storage := {| memory := PRef 0; _transaction_backup := PNone |};
              cache := PRef 1; _cache_modified_count := 1;
              WRITE_CACHE_SIZE := 1000 |} in
  let s' := {| memory := PRef 0; _transaction_backup := PNone |} in
  let w := {| heap := [ODict [("t", PInt 1)]; ODict []]; files := ∅ |} in
  Caching.call "rollback_transaction" [] m w = Raise AttributeError /\
  Caching.read (with_storage m s') w = Ok ((PRef 1, with_storage m s'), w).
Proof.
  intros m s' w.
  apply (middleware_has_no_transactions m "rollback_transaction" [] s' w w).
  - apply list_elem_of_In. simpl. auto.
  - discriminate.
Defined.

(** *** The storages of the repository satisfy the laws used above *)

Lemma memory_read_after_write : read_after_write ExtendedMemoryStorage.
Proof.
  intros d s s' w w' v [= <- <-] Hv. unfold read_value. simpl. by rewrite Hv.
Qed.

Lemma memory_close_keeps_state : close_keeps_state ExtendedMemoryStorage.
Proof. by intros s s' w w' [= <- <-]. Qed.

Lemma json_close_keeps_state {codec : JsonCodec} :
  close_keeps_state ExtendedJSONStorage.
Proof. by intros s s' w w' [= <- <-]. Qed.

Lemma json_read_after_write {codec : JsonCodec} :
  (forall v, loads (dumps v) = Some v /\ dumps v <> EmptyString) ->
  read_after_write ExtendedJSONStorage.
Proof.
  intros Hcodec d s s' w w' v Hw Hv.
  rewrite (json_write_spec _ _ v) in Hw by done. injection Hw as <- <-.
  rewrite (json_read_value _ _ (dumps v)) by (simpl; apply lookup_insert_eq).
  unfold decode. destruct (Hcodec v) as [-> Hne].
  by destruct (String.eqb_spec (dumps v) EmptyString).
Qed.

(** ** Runs of the middleware *)

(** A middleware with threshold 3 over a recording storage: after reads,
    two writes (the second one flushed) and a flush, the buffer is
    served. *)
Lemma populated_buffer_serves_reads_witness :
  let m := {| storage := @nil call_event; cache := PRef 0; _cache_modified_count := 1;
              WRITE_CACHE_SIZE := 3 |} in
  let m' := {| storage := [WriteCall (PRef 0)]; cache := PRef 0;
               _cache_modified_count := 0; WRITE_CACHE_SIZE := 3 |} in
  let w := {| heap := [ODict [("t", PInt 1)]; ODict []]; files := ∅ |} in
  populated m' /\ Caching.read m' w = Ok ((PRef 0, m'), w).
Proof.
  intros m m' w.
  apply (populated_buffer_serves_reads m
           [OpRead; OpWrite (PRef 1); OpRead; OpWrite (PRef 0); OpFlush; OpRead]
           w m' w).
  - discriminate.
  - repeat constructor.
  - reflexivity.
Defined.

(** Threshold 3 over a memory storage: two writes leave it empty, the third
    reaches it. *)
Lemma threshold_flush_witness :
  let m := {| storage := {| memory := PNone; _transaction_backup := PNone |};
              cache := PNone; _cache_modified_count := 0;
              WRITE_CACHE_SIZE := 3 |} in
  let w := {| heap := [ODict [("t", PInt 1)]; ODict []]; files := ∅ |} in
  iterM Caching.write [PRef 0; PRef 1] m w =
    Ok ({| storage := {| memory := PNone; _transaction_backup := PNone |};
           cache := PRef 1; _cache_modified_count := 2;
           WRITE_CACHE_SIZE := 3 |}, w) /\
  iterM Caching.write [PRef 0; PRef 1; PRef 0] m w =
    Ok ({| storage := {| memory := PRef 0; _transaction_backup := PNone |};
           cache := PRef 0; _cache_modified_count := 0;
           WRITE_CACHE_SIZE := 3 |}, w).
Proof.
  intros m w.
  destruct (threshold_flush m [PRef 0; PRef 1] (PRef 0) w) as (H1 & H2 & _).
  - reflexivity.
  - reflexivity.
  - split; [exact H1|exact H2].
Defined.

(** [close()] with one pending write, over a recording storage: the write
    comes before the close. *)
Lemma close_flushes_witness :
  let m := {| storage := @nil call_event; cache := PRef 0; _cache_modified_count := 1;
              WRITE_CACHE_SIZE := 1000 |} in
  let w := {| heap := [ODict [("t", PInt 1)]]; files := ∅ |} in
  Caching.close m w =
    Ok ({| storage := [WriteCall (PRef 0); CloseCall]; cache := PRef 0;
           _cache_modified_count := 0; WRITE_CACHE_SIZE := 1000 |}, w).
Proof.
  intros m w.
  destruct (close_flushes m PNone w) as (H1 & _).
  apply H1. simpl. lia.
Defined.

(** *** The wrapped storage as the middleware drives it *)

(** With counter 0, [close()] sends the wrapped storage a close and no
    write. *)
Example close_without_pending_write w :
  Caching.close {| storage := @nil call_event; cache := PRef 0;
                   _cache_modified_count := 0; WRITE_CACHE_SIZE := 1000 |} w =
    Ok ({| storage := [CloseCall]; cache := PRef 0;
           _cache_modified_count := 0; WRITE_CACHE_SIZE := 1000 |}, w).
Proof. reflexivity. Qed.

(** A first [read()] that finds the wrapped storage empty gets [None] and
    leaves the buffer as it was: nothing is populated yet. *)
Example read_of_empty_storage w :
  let m := {| storage := {| memory := PNone; _transaction_backup := PNone |};
              cache := PNone; _cache_modified_count := 0;
              WRITE_CACHE_SIZE := 1000 |} in
  Caching.read m w = Ok ((PNone, m), w).
Proof. reflexivity. Qed.

(** A populated buffer is served even when the wrapped storage cannot be
    read at all. *)
Example read_does_not_reach_storage w :
  Caching.read {| storage := @nil call_event; cache := PRef 0;
                  _cache_modified_count := 0; WRITE_CACHE_SIZE := 1000 |} w =
    Ok ((PRef 0, {| storage := @nil call_event; cache := PRef 0;
                    _cache_modified_count := 0; WRITE_CACHE_SIZE := 1000 |}), w)
  /\
  Caching.read {| storage := @nil call_event; cache := PNone;
                  _cache_modified_count := 0; WRITE_CACHE_SIZE := 1000 |} w =
    Raise FileNotFoundError.
Proof. split; reflexivity. Qed.

(** * Further properties *)

(** ** Updating one object in the store *)

Lemma depth_with_elem {A} (d : A -> nat) (l : list A) x :
  x ∈ l -> d x <= depth_with d l.
Proof.
  induction 1 as [x l|x y l _ IH]; simpl; lia.
Qed.

(** The entries of a container are less deep than the container. *)
Lemma obj_value_impl_depth (f g : pyval -> option value) o v :
  obj_value f o = Some v ->
  (forall x y, f x = Some y -> vdepth y < vdepth v -> g x = Some y) ->
  obj_value g o = Some v.
Proof.
  destruct o as [items|items|items]; simpl; intros Hv Hfg;
    apply fmap_Some in Hv as (ys & Hm & ->);
    apply fmap_Some; exists ys; (split; [|done]);
    apply mapM_Some in Hm; apply mapM_Some;
    apply Forall2_same_length_lookup;
    (split; [by eapply Forall2_length|]);
    intros i a b Ha Hb;
    pose proof (Forall2_lookup_lr _ _ _ _ _ _ Hm Ha Hb) as Hab; simpl in Hab.
  - apply fmap_Some in Hab as (y & Hy & ->). apply fmap_Some.
    exists y. split; [|done]. apply Hfg; [done|].
    rewrite vdepth_dict.
    pose proof (depth_with_elem (fun kx : string * value => vdepth kx.2) ys
                  (a.1, y) (list_elem_of_lookup_2 _ _ _ Hb)) as Hle.
    simpl in Hle. lia.
  - apply Hfg; [done|]. rewrite vdepth_list.
    pose proof (depth_with_elem vdepth ys b (list_elem_of_lookup_2 _ _ _ Hb)).
    lia.
  - apply Hfg; [done|]. rewrite vdepth_tuple.
    pose proof (depth_with_elem vdepth ys b (list_elem_of_lookup_2 _ _ _ Hb)).
    lia.
Qed.

Lemma reify_functional n m h x y y' :
  reify n h x = Some y -> reify m h x = Some y' -> y = y'.
Proof.
  intros Hn Hm.
  apply (reify_fuel n (n `max` m)) in Hn; [|lia].
  apply (reify_fuel m (n `max` m)) in Hm; [|lia]. congruence.
Qed.

(** Replacing the object at [l] does not change the value of anything
    less deep than the old object at [l]: such a thing cannot contain
    it. *)
Lemma reify_insert_below k n h l o' v x y :
  reify k h (PRef l) = Some v ->
  reify n h x = Some y ->
  vdepth y < vdepth v ->
  reify n (<[l := o']> h) x = Some y.
Proof.
  intros Hl. revert x y. induction n as [|n IH]; intros [] y; simpl; try done.
  destruct (h !! l0) as [o|] eqn:Hl0; [|done].
  intros Hy Hdepth. destruct (decide (l = l0)) as [->|Hne].
  - assert (reify (S n) h (PRef l0) = Some y) as Hy'
      by (simpl; by rewrite Hl0).
    rewrite (reify_functional _ _ _ _ _ _ Hl Hy') in Hdepth. lia.
  - rewrite list_lookup_insert_ne by done. unfold loc in *. rewrite Hl0.
    eapply obj_value_impl_depth; [exact Hy|].
    intros a b Hab Hb. apply IH; [done|lia].
Qed.

(** A copy of the dictionary at [l] keeps its value when the dictionary at
    [l] is replaced. *)
Lemma deep_insert_snapshot h l b items o' v :
  h !! l = Some (ODict items) ->
  h !! b = Some (ODict items) ->
  b <> l ->
  deep h (PRef l) = Some v ->
  deep (<[l := o']> h) (PRef b) = Some v.
Proof.
  intros Hl Hb Hne Hv. unfold deep in *. rewrite length_insert.
  simpl in *. rewrite Hl in Hv.
  rewrite list_lookup_insert_ne by done. unfold loc in *. rewrite Hb.
  eapply obj_value_impl_depth; [exact Hv|].
  intros x y Hxy Hy. eapply (reify_insert_below (S (length h))); [|done|done].
  cbn [reify]. unfold loc. rewrite Hl. exact Hv.
Qed.

(** In-place changes of the dictionary at [l] replace the object at [l]
    and nothing else; they fail exactly when one of them deletes a key
    that is not there. *)
Lemma run_dict_ops_spec ops l : forall w items,
  heap w !! l = Some (ODict items) ->
  run_dict_ops (PRef l) ops w =
    match dict_after ops items with
    | Some items' => Ok (tt, set_heap (<[l := ODict items']> (heap w)) w)
    | None => Raise KeyError
    end.
Proof.
  induction ops as [|o ops IH]; intros w items Hl.
  - simpl. unfold ret. by rewrite list_insert_id, set_heap_id.
  - assert (l < length (heap w)) as Hlt by by eapply lookup_lt_Some.
    assert (forall items1,
              run_dict_ops (PRef l) ops
                (set_heap (<[l := ODict items1]> (heap w)) w) =
              match dict_after ops items1 with
              | Some items' =>
                  Ok (tt, set_heap (<[l := ODict items']> (heap w)) w)
              | None => Raise KeyError
              end) as Hrest.
    { intros items1.
      rewrite (IH (set_heap (<[l := ODict items1]> (heap w)) w) items1)
        by (simpl; by rewrite list_lookup_insert_eq).
      destruct (dict_after ops items1) as [items'|]; [|done].
      simpl. by rewrite list_insert_insert_eq. }
    cbn [run_dict_ops dict_after]. unfold bind at 1.
    destruct o as [k x|k]; simpl; unfold bind, load, store; rewrite Hl; simpl.
    + rewrite Hl. apply Hrest.
    + destruct (dict_mem k items); [|done]. rewrite Hl. apply Hrest.
Qed.

(** ** More on transactions *)

(** The snapshot of the memory backend is a new dictionary with the
    entries of the state. *)
Lemma memory_begin_snapshot self w l items :
  memory self = PRef l ->
  heap w !! l = Some (ODict items) ->
  exists b h',
    Memory.begin_transaction self w =
      Ok ({| memory := PRef l; _transaction_backup := PRef b |},
          set_heap (heap w ++ h') w) /\
    (heap w ++ h')%list !! b = Some (ODict items) /\
    b <> l.
Proof.
  intros Hm Hl.
  assert (l < length (heap w)) as Hlt by by eapply lookup_lt_Some.
  unfold Memory.begin_transaction, bind. simpl.
  unfold MemoryStorage_read, ret. rewrite Hm. simpl.
  unfold bind, load. rewrite Hl. unfold ret.
  destruct items as [|kx items].
  - simpl. unfold bind, load. simpl.
    rewrite lookup_app_r, Nat.sub_diag by lia. simpl.
    exists (length (heap w ++ [ODict []])), [ODict []; ODict []].
    split; [|split].
    + unfold alloc, set_heap. simpl. by rewrite <- app_assoc.
    + rewrite lookup_app_r by (rewrite length_app; simpl; lia).
      rewrite length_app. simpl.
      by replace (length (heap w) + 1 - length (heap w)) with 1 by lia.
    + rewrite length_app. simpl. lia.
  - simpl. unfold bind, load. rewrite Hl.
    exists (length (heap w)), [ODict (kx :: items)].
    split; [done|]. split; [|lia].
    by rewrite lookup_app_r, Nat.sub_diag by lia.
Qed.

(** Once the snapshot is taken, replacing the state dictionary itself does
    not reach it: the rollback brings the old value back. *)
Lemma memory_rollback_after_replace d b l items o' v w :
  heap w !! l = Some (ODict items) ->
  heap w !! b = Some (ODict items) ->
  b <> l ->
  deep (heap w) (PRef l) = Some v ->
  observe (Memory.rollback_transaction
             {| memory := d; _transaction_backup := PRef b |})
    (set_heap (<[l := o']> (heap w)) w) = Ok v.
Proof.
  intros Hl Hb Hne Hv. unfold observe. simpl. unfold read_value. simpl.
  by rewrite (deep_insert_snapshot _ l b items o' v).
Qed.

(** X1. On the memory backend the snapshot does protect the top level of
    the state.  After [begin_transaction], a client takes the state with
    [read()], sets and deletes tables in it in place, and writes it back.
    When every deleted table is there at the time it is deleted, the run
    succeeds and [rollback_transaction] brings the old state back; when
    one is not, the client's [del] raises [KeyError]. *)
Theorem memory_rollback_undoes_top_level_updates
  (m : ExtendedMemoryStorage) (w : world) (l : loc)
  (items : list (string * pyval)) (v : value) (ops : list dict_op) :
  memory m = PRef l ->
  heap w !! l = Some (ODict items) ->
  deep (heap w) (PRef l) = Some v ->
  let run :=
    let* s := Memory.begin_transaction m in
    let* d := read s in
    let* _ := run_dict_ops d ops in
    let* s := write d s in
    Memory.rollback_transaction s in
  observe run w =
    match dict_after ops items with
    | Some _ => Ok v
    | None => Raise KeyError
    end.
Proof.
  intros Hm Hl Hv run.
  destruct (memory_begin_snapshot m w l items Hm Hl)
    as (b & h' & Hbegin & Hb & Hne).
  assert (observe run w =
            match run_dict_ops (PRef l) ops (set_heap (heap w ++ h') w) with
            | Ok (_, w') =>
                observe (Memory.rollback_transaction
                           {| memory := PRef l;
                              _transaction_backup := PRef b |}) w'
            | Raise e => Raise e
            end) as ->.
  { subst run. unfold observe, bind. rewrite Hbegin. simpl.
    by destruct (run_dict_ops _ _ _) as [[[] w2]|]. }
  rewrite (run_dict_ops_spec ops l (set_heap (heap w ++ h') w) items)
    by (simpl; by apply lookup_app_l_Some).
  destruct (dict_after ops items) as [items'|]; [|done].
  apply (memory_rollback_after_replace (PRef l) b l items (ODict items') v
           (set_heap (heap w ++ h') w)); simpl; try done.
  - by apply lookup_app_l_Some.
  - by apply deep_app.
Qed.

(** A run with a table added, one replaced and one deleted, which the
    rollback undoes; and a run that deletes a table twice. *)
Lemma memory_rollback_undoes_top_level_updates_witness :
  let m := {| memory := PRef 1; _transaction_backup := PNone |} in
  let w := {| heap := [ODict [("n", PInt 1)];
                       ODict [("t", PRef 0); ("u", PInt 5)]];
              files := ∅ |} in
  let run ops :=
    let* s := Memory.begin_transaction m in
    let* d := read s in
    let* _ := run_dict_ops d ops in
    let* s := write d s in
    Memory.rollback_transaction s in
  observe (run [SetItem "x" (PInt 7); SetItem "t" PNone; DelItem "u"]) w =
    Ok (VDict [("t", VDict [("n", VInt 1)]); ("u", VInt 5)]) /\
  observe (run [DelItem "u"; DelItem "u"]) w = Raise KeyError.
Proof.
  intros m w run. split.
  - exact (memory_rollback_undoes_top_level_updates m w 1
             [("t", PRef 0); ("u", PInt 5)]
             (VDict [("t", VDict [("n", VInt 1)]); ("u", VInt 5)])
             [SetItem "x" (PInt 7); SetItem "t" PNone; DelItem "u"]
             eq_refl eq_refl eq_refl).
  - exact (memory_rollback_undoes_top_level_updates m w 1
             [("t", PRef 0); ("u", PInt 5)]
             (VDict [("t", VDict [("n", VInt 1)]); ("u", VInt 5)])
             [DelItem "u"; DelItem "u"]
             eq_refl eq_refl eq_refl).
Defined.

Section more_transactions.
Context {codec : JsonCodec}.

Implicit Types (m : ExtendedMemoryStorage) (j : ExtendedJSONStorage).

Lemma json_begin_spec j w c :
  files w !! _handle_name j = Some c ->
  _transaction_backup_path j <> _handle_name j ->
  begin_transaction j w =
    Ok (j, set_files (<[_transaction_backup_path j := c]> (files w)) w).
Proof.
  intros Hc Hne. simpl. unfold Json.begin_transaction, bind.
  by rewrite (copyfile_spec _ _ c).
Qed.

Lemma json_rollback_spec j w c :
  files w !! _transaction_backup_path j = Some c ->
  _transaction_backup_path j <> _handle_name j ->
  rollback_transaction j w =
    Ok (j, set_files (delete (_transaction_backup_path j)
                        (<[_handle_name j := c]> (files w))) w).
Proof.
  intros Hc Hne. simpl. unfold Json.rollback_transaction, bind, path_exists.
  rewrite Hc. rewrite (copyfile_spec _ _ c) by done.
  unfold os_remove. simpl. rewrite lookup_insert_ne by done. by rewrite Hc.
Qed.


Lemma json_backup_spec j p w c :
  files w !! _handle_name j = Some c ->
  p <> _handle_name j ->
  backup p j w = Ok (j, set_files (<[p := c]> (files w)) w).
Proof.
  intros Hc Hne. simpl. unfold Json.backup, bind.
  by rewrite (copyfile_spec _ _ c).
Qed.

Lemma json_restore_spec j p w c :
  files w !! p = Some c ->
  p <> _handle_name j ->
  restore p j w = Ok (j, set_files (<[_handle_name j := c]> (files w)) w).
Proof.
  intros Hc Hne. simpl. unfold Json.restore, bind.
  by rewrite (copyfile_spec _ _ c).
Qed.

(** What the file backend reads back after a write. *)
Lemma decode_dumps v :
  loads (dumps v) = Some v -> dumps v <> EmptyString ->
  decode (dumps v) = Ok v.
Proof.
  intros Hrt Hne. unfold decode. rewrite Hrt.
  by destruct (String.eqb_spec (dumps v) EmptyString).
Qed.

End more_transactions.



(** X4. A transaction begun on a storage that holds nothing: on the
    memory backend the snapshot is an empty dictionary, so after a rollback
    [read()] returns [{}] and no longer the absent marker; on the file
    backend the empty file comes back and [read()] returns the absent
    marker. *)
Theorem rollback_to_absent_state {codec : JsonCodec}
  (m : ExtendedMemoryStorage) (j : ExtendedJSONStorage) (w : world)
  (ws : list pyval) :
  memory m = PNone ->
  files w !! _handle_name j = Some EmptyString ->
  _transaction_backup_path j <> _handle_name j ->
  Forall (fun d => is_Some (deep (heap w) d)) ws ->
  read_value m w = Ok VNone /\
  observe (let* s := begin_transaction m in
           let* s := iterM write ws s in
           rollback_transaction s) w = Ok (VDict []) /\
  read_value j w = Ok VNone /\
  observe (let* s := begin_transaction j in
           let* s := iterM write ws s in
           rollback_transaction s) w = Ok VNone.
Proof.
  intros Hm Hc Hne Hws. split; [|split; [|split]].
  - unfold read_value. simpl. unfold MemoryStorage_read, ret. by rewrite Hm.
  - unfold observe, bind. simpl.
    unfold Memory.begin_transaction, bind. simpl.
    unfold MemoryStorage_read, ret. rewrite Hm. simpl.
    unfold bind, load. simpl.
    rewrite lookup_app_r, Nat.sub_diag by lia. simpl.
    match goal with
    | |- context [iterM _ ws ?s ?w1] =>
        destruct (memory_writes_spec ws s w1) as (d & Hd)
    end.
    simpl in Hd. rewrite Hd. simpl. unfold read_value. simpl.
    unfold deep. simpl.
    rewrite lookup_app_r by (rewrite length_app; simpl; lia).
    rewrite length_app. simpl. by rewrite Nat.sub_diag.
  - by rewrite (json_read_value _ _ EmptyString).
  - destruct (json_rollback_restores j w EmptyString ws Hc Hne Hws)
      as (w' & Hrun & _ & _ & Hread).
    unfold observe. rewrite Hrun, Hread.
    by rewrite (json_read_value _ _ EmptyString).
Qed.

(** X5. The paths of [backup] and [restore] on the file backend, and of
    [restore] on the memory backend: restoring from a path that does not
    exist raises [FileNotFoundError] on the file backend and is silently
    ignored on the memory backend, which keeps its state; giving the file
    backend its own database file as the path raises [SameFileError]. *)
Theorem backup_restore_path_errors {codec : JsonCodec}
  (m : ExtendedMemoryStorage) (j : ExtendedJSONStorage) (w : world)
  (p : string) :
  files w !! p = None ->
  p <> _handle_name j ->
  restore p m w = Ok (m, w) /\
  restore p j w = Raise FileNotFoundError /\
  backup (_handle_name j) j w = Raise SameFileError /\
  restore (_handle_name j) j w = Raise SameFileError.
Proof.
  intros Hp Hne. split; [|split; [|split]]; simpl.
  - unfold Memory.restore, bind, path_exists. by rewrite Hp.
  - unfold Json.restore, bind, copyfile.
    destruct (String.eqb_spec p (_handle_name j)); [done|].
    unfold bind, read_text. by rewrite Hp.
  - unfold Json.backup, bind, copyfile. by rewrite String.eqb_refl.
  - unfold Json.restore, bind, copyfile. by rewrite String.eqb_refl.
Qed.

(** X6. A backup taken inside a transaction records the state as it is
    then, and does not disturb the transaction: after [begin; write(A);
    backup(p); rollback], [read()] returns the state from before [begin]
    and the file at [p] holds [A]. *)
Theorem backup_inside_transaction {codec : JsonCodec}
  (m : ExtendedMemoryStorage) (j : ExtendedJSONStorage) (w : world)
  (l : loc) (items : list (string * pyval)) (v : value)
  (A : pyval) (vA : value) (p c : string) :
  memory m = PRef l ->
  heap w !! l = Some (ODict items) ->
  deep (heap w) (PRef l) = Some v ->
  A <> PNone ->
  deep (heap w) A = Some vA ->
  files w !! _handle_name j = Some c ->
  _transaction_backup_path j <> _handle_name j ->
  p <> _handle_name j ->
  p <> _transaction_backup_path j ->
  (exists m' w',
     (let* s := begin_transaction m in
      let* s := write A s in
      let* s := backup p s in
      rollback_transaction s) w = Ok (m', w') /\
     read_value m' w' = Ok v /\
     files w' !! p = Some (dumps vA)) /\
  (exists w',
     (let* s := begin_transaction j in
      let* s := write A s in
      let* s := backup p s in
      rollback_transaction s) w = Ok (j, w') /\
     read_value j w' = read_value j w /\
     files w' !! p = Some (dumps vA)).
Proof.
  intros Hm Hl Hv HA HvA Hc Hne Hp Hpb. split.
  - destruct (memory_begin_spec m w l items v Hm Hl Hv) as (b & h' & Hb & Hd).
    unfold bind. simpl. rewrite Hb. simpl.
    unfold Memory.backup, bind. simpl. unfold MemoryStorage_read, ret.
    assert (json_dump A p (set_heap (heap w ++ h') w) =
              Ok (tt, set_files (<[p := dumps vA]> (files w))
                        (set_heap (heap w ++ h') w))) as Hdump.
    { unfold json_dump. simpl. by rewrite (deep_app _ _ _ vA). }
    destruct A; try done; rewrite Hdump; simpl;
      eexists _, _; (split; [reflexivity|]);
      (split; [unfold read_value; simpl; by rewrite Hd
              |simpl; apply lookup_insert_eq]).
  - unfold bind.
    rewrite (json_begin_spec _ _ c) by done.
    rewrite (json_write_spec _ _ vA) by done.
    rewrite (json_backup_spec _ _ _ (dumps vA));
      [|simpl; apply lookup_insert_eq|done].
    rewrite (json_rollback_spec _ _ c); [|simpl|done].
    2:{ rewrite !lookup_insert_ne by done. apply lookup_insert_eq. }
    eexists. split; [reflexivity|]. simpl. split.
    + rewrite (json_read_value _ _ c), (json_read_value _ _ c); [done|done|].
      simpl. rewrite lookup_delete_ne by done. apply lookup_insert_eq.
    + rewrite lookup_delete_ne, lookup_insert_ne by done.
      apply lookup_insert_eq.
Qed.

(** X7. Backups travel between the backends: a backup written by the
    memory backend can be restored into the file backend, and a backup
    copied by the file backend can be restored into the memory backend;
    either way the receiving storage then reads the state of the other. *)
Theorem backup_crosses_backends {codec : JsonCodec}
  (m : ExtendedMemoryStorage) (j : ExtendedJSONStorage) (w : world)
  (p : string) (v : value) (c : string) (vc : value) :
  memory m <> PNone ->
  deep (heap w) (memory m) = Some v ->
  loads (dumps v) = Some v ->
  dumps v <> EmptyString ->
  files w !! _handle_name j = Some c ->
  loads c = Some vc ->
  p <> _handle_name j ->
  (exists w',
     (let* _ := backup p m in restore p j) w = Ok (j, w') /\
     read_value j w' = Ok v) /\
  (exists m' w',
     (let* _ := backup p j in restore p m) w = Ok (m', w') /\
     read_value m' w' = Ok vc).
Proof.
  intros Hm Hv Hrt Hnonempty Hc Hvc Hp. split.
  - unfold bind. simpl. unfold Memory.backup, bind. simpl.
    unfold MemoryStorage_read, ret.
    assert (json_dump (memory m) p w =
              Ok (tt, set_files (<[p := dumps v]> (files w)) w)) as Hdump.
    { unfold json_dump. by rewrite Hv. }
    destruct (memory m) eqn:Hmem; try done; rewrite Hdump;
      unfold Json.restore, bind;
      (rewrite (copyfile_spec _ _ (dumps v));
         [|done|simpl; apply lookup_insert_eq]);
      eexists; (split; [reflexivity|]);
      (rewrite (json_read_value _ _ (dumps v));
         [by apply decode_dumps|simpl; apply lookup_insert_eq]).
  - unfold bind. rewrite (json_backup_spec _ _ _ c) by done.
    simpl. unfold Memory.restore, bind, path_exists. simpl.
    rewrite lookup_insert_eq.
    unfold json_load, bind, read_text. simpl. rewrite lookup_insert_eq, Hvc.
    match goal with
    | |- context [build vc ?w1] =>
        destruct (build_deep vc w1) as (r & h' & -> & Hd)
    end.
    simpl in Hd. simpl. eexists _, _. split; [reflexivity|].
    unfold read_value. simpl. by rewrite Hd.
Qed.

(** ** The facade *)

Lemma all_in_spec fields ld doc w :
  heap w !! ld = Some (ODict doc) ->
  Facade.all_in fields (PRef ld) w =
    Ok (forallb (fun k => dict_mem k doc) fields, w).
Proof.
  intros Hd. induction fields as [|k fields IH]; simpl; [done|].
  unfold bind, load. rewrite Hd. simpl. unfold ret at 1.
  destruct (dict_mem k doc); [exact IH|done].
Qed.

Lemma set_schema_last {St} (later : list (string * pyval)) t schema
  (db : TinyDB St) :
  Forall (fun c => c.1 <> t) later ->
  _schemas db !! t = Some schema ->
  _schemas (foldl (fun db c => Facade.set_schema c.1 c.2 db) db later) !! t
    = Some schema.
Proof.
  revert db. induction later as [|[n sc] later IH]; intros db Hall Hdb.
  - done.
  - apply Forall_cons in Hall as [Hn Hall]. simpl. apply IH; [done|].
    simpl. by rewrite lookup_insert_ne.
Qed.

Lemma dict_mem_true {A} k (items : list (string * A)) :
  dict_mem k items = true <-> k ∈ items.*1.
Proof.
  unfold dict_mem. induction items as [|[k' x] items IH]; simpl.
  - split; [done|]. intros Hin. by apply elem_of_nil in Hin.
  - destruct (String.eqb_spec k k') as [->|Hne].
    + split; [|done]. intros _. apply list_elem_of_here.
    + rewrite IH. split.
      * intros Hin. by apply list_elem_of_further.
      * intros Hin. apply elem_of_cons in Hin as [?|?]; [done|done].
Qed.

(** X8. [validate_document] checks presence and nothing else: with the
    schema that was set last for the table, it returns [True] exactly when
    every key of the schema is a key of the document.  The values in schema
    and document, further keys of the document, and the schemas of other
    tables play no part. *)
Theorem validate_document_checks_presence {St}
  (s : St) (earlier later : list (string * pyval)) (table_name : string)
  (ls ld : loc) (schema doc : list (string * pyval)) (w : world) :
  Forall (fun c => c.1 <> table_name) later ->
  heap w !! ls = Some (ODict schema) ->
  heap w !! ld = Some (ODict doc) ->
  let db :=
    foldl (fun db c => Facade.set_schema c.1 c.2 db)
      {| _storage := s; _opened := true; _schemas := ∅ |}
      (earlier ++ (table_name, PRef ls) :: later) in
  Facade.validate_document table_name (PRef ld) db w =
    Ok (forallb (fun k => dict_mem k doc) schema.*1,
        set_heap (heap w ++ [ODict []]) w) /\
  (forallb (fun k => dict_mem k doc) schema.*1 = true <->
   forall k, k ∈ schema.*1 -> k ∈ doc.*1).
Proof.
  intros Hlater Hs Hd db. split.
  - assert (_schemas db !! table_name = Some (PRef ls)) as Hdb.
    { subst db. rewrite foldl_app. simpl. apply set_schema_last; [done|].
      simpl. apply lookup_insert_eq. }
    unfold Facade.validate_document, bind, alloc. rewrite Hdb.
    unfold py_keys, bind, load. simpl.
    rewrite (lookup_app_l_Some _ _ _ _ Hs). unfold ret.
    rewrite (all_in_spec _ ld doc); [done|]. simpl.
    by apply lookup_app_l_Some.
  - rewrite forallb_forall. split.
    + intros Hall k Hk. apply dict_mem_true. apply Hall.
      by apply list_elem_of_In.
    + intros Hall k Hk. apply dict_mem_true. apply Hall.
      by apply list_elem_of_In.
Qed.

(** A value that is a dictionary comes from a dictionary object with the
    same keys, whose entries have the values of the entries. *)
Lemma deep_dict_inv h r vs :
  deep h r = Some (VDict vs) ->
  exists l items,
    r = PRef l /\ h !! l = Some (ODict items) /\
    Forall2 (fun kx ky => ky.1 = kx.1 /\ reify (length h) h kx.2 = Some ky.2)
      items vs.
Proof.
  unfold deep. destruct r as [| | | |l]; simpl; try done.
  destruct (h !! l) as [[items|items|items]|] eqn:Hl; simpl; [| | |done].
  - intros Hv. apply fmap_Some in Hv as (ys & Hm & [= ->]).
    exists l, items. split; [done|]. split; [done|].
    apply mapM_Some in Hm. eapply Forall2_impl; [exact Hm|].
    simpl. intros kx ky Hk. apply fmap_Some in Hk as (y & Hy & ->). done.
  - intros Hv. by apply fmap_Some in Hv as (ys & Hm & [=]).
  - intros Hv. by apply fmap_Some in Hv as (ys & Hm & [=]).
Qed.

Lemma deep_none_inv h r : deep h r = Some VNone -> r = PNone.
Proof.
  unfold deep. destruct r as [| | | |l]; simpl; try done.
  destruct (h !! l) as [[items|items|items]|]; simpl; [| | |done];
    intros Hv; by apply fmap_Some in Hv as (ys & Hm & [=]).
Qed.

Lemma Forall2_keys (items : list (string * pyval)) (vs : list (string * value))
  (R : pyval -> value -> Prop) :
  Forall2 (fun kx ky => ky.1 = kx.1 /\ R kx.2 ky.2) items vs ->
  items.*1 = vs.*1.
Proof.
  induction 1 as [|kx ky items vs [Hk _] _ IH]; [done|].
  rewrite !fmap_cons. by rewrite Hk, IH.
Qed.

Section facade_tables.
Context {St Tbl : Type} `{Storage St}.

Implicit Types (db : TinyDB St) (D : Database St Tbl).

(** What [tables()] returns, from the value of the state. *)
Lemma tables_of_state db (w : world) (v : value) (K : gset string) :
  read_value (_storage db) w = Ok v ->
  keys_of v = Some K ->
  outcome (TinyDBMethods.tables db w) = Ok K.
Proof.
  unfold read_value, TinyDBMethods.tables, bind.
  destruct (read (_storage db) w) as [[r w1]|]; [|done].
  destruct (deep (heap w1) r) as [v'|] eqn:Hd; [|done].
  intros [= ->] HK. destruct v as [| | | |vs| |]; try done; injection HK as <-.
  - apply deep_none_inv in Hd as ->. simpl. unfold bind, load. simpl.
    by rewrite lookup_app_r, Nat.sub_diag by lia.
  - apply deep_dict_inv in Hd as (l & items & -> & Hl & Hitems).
    apply (Forall2_keys _ _ (fun x y => reify _ _ x = Some y)) in Hitems.
    simpl. unfold bind, load. rewrite Hl.
    destruct items as [|kx items].
    + simpl. unfold bind, load. simpl.
      rewrite lookup_app_r, Nat.sub_diag by lia. simpl.
      change (map fst vs) with (vs.*1). by rewrite <- Hitems.
    + simpl. unfold bind, load. rewrite Hl. simpl.
      change (map fst vs) with (vs.*1). by rewrite <- Hitems.
Qed.

(** X9. [tables()] returns the table names of the state: the keys of the
    dictionary that [read()] returns, and no name when the storage holds
    nothing. *)
Theorem tables_are_the_keys db (w : world) (v : value) (K : gset string) :
  read_value (_storage db) w = Ok v ->
  keys_of v = Some K ->
  outcome (TinyDBMethods.tables db w) = Ok K.
Proof. apply tables_of_state. Qed.

(** X10. After [drop_tables()] the database has no tables and no cached
    table handles, whatever it held before (on a storage that reads back
    what was written to it). *)
Theorem drop_tables_leaves_nothing D (w : world) D' w' :
  read_after_write St ->
  TinyDBMethods.drop_tables D w = Ok (D', w') ->
  _tables D' = ∅ /\
  read_value (_storage (facade D')) w' = Ok (VDict []) /\
  outcome (TinyDBMethods.tables (facade D') w') = Ok ∅.
Proof.
  intros Hlaw. unfold TinyDBMethods.drop_tables, bind, alloc.
  destruct (write _ _ _) as [[s w1]|] eqn:Hw; [|done].
  intros [= <- <-]. simpl. split; [done|].
  assert (read_value s w1 = Ok (VDict [])) as Hread.
  { eapply Hlaw; [exact Hw|]. simpl. unfold deep. simpl.
    by rewrite lookup_app_r, Nat.sub_diag by lia. }
  split; [done|]. by apply (tables_of_state _ _ (VDict [])).
Qed.

End facade_tables.

Lemma dict_mem_keys {A B} k (items : list (string * A))
  (vs : list (string * B)) :
  items.*1 = vs.*1 -> dict_mem k items = dict_mem k vs.
Proof.
  unfold dict_mem. revert vs.
  induction items as [|[k1 x] items IH]; intros [|[k2 y] vs]; try done.
  rewrite !fmap_cons. simpl. intros [= -> Hrest].
  destruct (String.eqb k k2); [done|]. by apply IH.
Qed.

Lemma dict_del_Forall2 {A B} (R : string * A -> string * B -> Prop) k
  (items : list (string * A)) (vs : list (string * B)) :
  (forall kx ky, R kx ky -> ky.1 = kx.1) ->
  Forall2 R items vs ->
  Forall2 R (dict_del k items) (dict_del k vs).
Proof.
  intros Hkey. induction 1 as [|[k1 x] [k2 y] items vs HR Hrest IH]; simpl.
  - constructor.
  - pose proof (Hkey _ _ HR) as Hk. simpl in Hk. subst k2.
    destruct (String.eqb k k1); [done|]. by constructor.
Qed.

(** Deleting a key from a dictionary in place deletes it from its value
    and leaves the other entries as they were. *)
Lemma deep_dict_del h l items vs k :
  h !! l = Some (ODict items) ->
  deep h (PRef l) = Some (VDict vs) ->
  deep (<[l := ODict (dict_del k items)]> h) (PRef l)
    = Some (VDict (dict_del k vs)).
Proof.
  intros Hl Hv.
  assert (l < length h) as Hlt by by eapply lookup_lt_Some.
  destruct (deep_dict_inv _ _ _ Hv) as (l' & items' & [= <-] & Hl' & Hitems).
  unfold loc in *. rewrite Hl in Hl'. injection Hl' as <-.
  unfold deep. rewrite length_insert. cbn [reify].
  rewrite list_lookup_insert_eq by done. simpl.
  apply fmap_Some. eexists. split; [|done]. apply mapM_Some.
  assert (Forall2 (fun (kx : string * pyval) (ky : string * value) =>
            ky.1 = kx.1 /\
            reify (length h) (<[l := ODict (dict_del k items)]> h) kx.2
              = Some ky.2) items vs) as Hstable.
  { apply Forall2_same_length_lookup. split; [by eapply Forall2_length|].
    intros i kx ky Hx Hy.
    destruct (Forall2_lookup_lr _ _ _ _ _ _ Hitems Hx Hy) as [Hk Hr].
    split; [done|].
    eapply (reify_insert_below (S (length h))); [exact Hv|done|].
    rewrite vdepth_dict.
    pose proof (depth_with_elem (fun kx : string * value => vdepth kx.2) vs
                  ky (list_elem_of_lookup_2 _ _ _ Hy)) as Hle.
    simpl in Hle. lia. }
  eapply Forall2_impl.
  - apply dict_del_Forall2; [|exact Hstable]. by intros kx ky [Hk _].
  - simpl. intros kx [k2 y] [Hk Hr]. simpl in *. subst k2. by rewrite Hr.
Qed.

Section facade_drop.
Context {St Tbl : Type} `{Storage St}.

Implicit Types (db : TinyDB St) (D : Database St Tbl).

(** X11. [drop_table(name)] on a state that has the table: the table is
    gone from what [read()] returns afterwards, the other tables are as
    they were, and the cached handle of the table is dropped (on a storage
    that reads back what was written to it). *)
Theorem drop_table_removes D (name : string) (w : world) (r : pyval) w1
  (vs : list (string * value)) D' w' :
  read_after_write St ->
  read (_storage (facade D)) w = Ok (r, w1) ->
  deep (heap w1) r = Some (VDict vs) ->
  name ∈ vs.*1 ->
  TinyDBMethods.drop_table name D w = Ok (D', w') ->
  _tables D' = delete name (_tables D) /\
  read_value (_storage (facade D')) w' = Ok (VDict (dict_del name vs)) /\
  outcome (TinyDBMethods.tables (facade D') w') =
    Ok (list_to_set (dict_del name vs).*1).
Proof.
  intros Hlaw Hread Hv Hname.
  destruct (deep_dict_inv _ _ _ Hv) as (l & items & -> & Hl & Hitems).
  apply (Forall2_keys _ _ (fun x y => reify _ _ x = Some y)) in Hitems.
  apply dict_mem_true in Hname.
  rewrite <- (dict_mem_keys name items vs Hitems) in Hname.
  unfold TinyDBMethods.drop_table, bind. simpl. rewrite Hread.
  unfold py_contains, bind, load. rewrite Hl. simpl. unfold ret at 1.
  rewrite Hname. unfold py_delitem, bind, load, store. rewrite Hl, Hname, Hl.
  destruct (write _ _ _) as [[s w2]|] eqn:Hw; [|done].
  intros [= <- <-]. simpl. split; [done|].
  assert (read_value s w2 = Ok (VDict (dict_del name vs))) as Hafter.
  { eapply Hlaw; [exact Hw|]. simpl. by apply deep_dict_del. }
  split; [done|].
  apply (tables_of_state _ _ (VDict (dict_del name vs))); [exact Hafter|].
  done.
Qed.

(** X12. [drop_table(name)] when the storage holds nothing, or holds no
    such table: nothing is written; the call only reads the storage and
    drops the cached handle. *)
Theorem drop_table_missing D (name : string) (w : world) (r : pyval) w1
  (v : value) (K : gset string) :
  read (_storage (facade D)) w = Ok (r, w1) ->
  deep (heap w1) r = Some v ->
  keys_of v = Some K ->
  name ∉ K ->
  TinyDBMethods.drop_table name D w =
    Ok ({| facade := facade D; _tables := delete name (_tables D) |}, w1).
Proof.
  intros Hread Hv HK Hname.
  unfold TinyDBMethods.drop_table, bind. simpl. rewrite Hread.
  destruct v as [| | | |vs| |]; try done; injection HK as <-.
  - by apply deep_none_inv in Hv as ->.
  - destruct (deep_dict_inv _ _ _ Hv) as (l & items & -> & Hl & Hitems).
    apply (Forall2_keys _ _ (fun x y => reify _ _ x = Some y)) in Hitems.
    unfold py_contains, bind, load. rewrite Hl. simpl. unfold ret at 1.
    destruct (dict_mem name items) eqn:Hmem; [|done].
    rewrite (dict_mem_keys name items vs Hitems) in Hmem.
    apply dict_mem_true in Hmem. exfalso. apply Hname.
    by apply elem_of_list_to_set.
Qed.


(** X14. Leaving a [with] block closes the storage once: [__exit__] closes
    an open database, and does nothing after [close()] or after an earlier
    [__exit__]. *)
Theorem exit_closes_once db (w : world) :
  (_opened db = true -> TinyDBMethods.exit db w = Facade.close db w) /\
  (let* db := Facade.close db in TinyDBMethods.exit db) w =
    Facade.close db w /\
  (let* db := TinyDBMethods.exit db in TinyDBMethods.exit db) w =
    TinyDBMethods.exit db w.
Proof.
  unfold TinyDBMethods.exit, Facade.close, bind. split; [|split].
  - by intros ->.
  - by destruct (close (_storage db) w) as [[s w1]|].
  - destruct (_opened db) eqn:Ho; simpl.
    + by destruct (close (_storage db) w) as [[s w1]|].
    + unfold ret. simpl. by rewrite Ho.
Qed.

End facade_drop.

(** X15. A table dropped inside a transaction comes back: on the memory
    backend, after [begin_transaction(); drop_table(name);
    rollback_transaction()] through the facade, [read()] returns the state
    from before the transaction, whether or not the table existed. *)
Theorem rollback_undoes_drop_table {codec : JsonCodec} {Tbl : Type}
  (D : Database ExtendedMemoryStorage Tbl) (name : string) (w : world)
  (l : loc) (items : list (string * pyval)) (v : value) :
  memory (_storage (facade D)) = PRef l ->
  heap w !! l = Some (ODict items) ->
  deep (heap w) (PRef l) = Some v ->
  observe (let* f := Facade.begin_transaction (facade D) in
           let* D1 := TinyDBMethods.drop_table name
                        {| facade := f; _tables := _tables D |} in
           let* f := Facade.rollback_transaction (facade D1) in
           ret (_storage f)) w = Ok v.
Proof.
  intros Hm Hl Hv.
  destruct (memory_begin_snapshot _ w l items Hm Hl)
    as (b & h' & Hbegin & Hb & Hne).
  assert (heap (set_heap (heap w ++ h') w) !! l = Some (ODict items)) as Hl1
    by (simpl; by apply lookup_app_l_Some).
  assert (deep (heap w ++ h') (PRef l) = Some v) as Hv1 by by apply deep_app.
  unfold observe, bind. unfold Facade.begin_transaction, bind. simpl.
  rewrite Hbegin. simpl.
  unfold TinyDBMethods.drop_table, bind. simpl.
  unfold py_contains, bind, load. simpl in Hl1. simpl. rewrite Hl1. simpl.
  destruct (dict_mem name items) eqn:Hmem; simpl.
  - unfold py_delitem, bind, load. simpl. rewrite Hl1, Hmem.
    unfold store. simpl. rewrite Hl1. simpl.
    unfold Facade.rollback_transaction, bind. simpl.
    unfold read_value. simpl.
    by rewrite (deep_insert_snapshot _ l b items _ v).
  - unfold Facade.rollback_transaction, bind. simpl.
    unfold read_value. simpl.
    pose proof (deep_insert_snapshot _ l b items (ODict items) v
                  Hl1 Hb Hne Hv1) as Hs.
    rewrite list_insert_id in Hs by done. by rewrite Hs.
Qed.

(** ** More on the caching middleware *)

Lemma flushed_length T c ds :
  c < T -> length (flushed T c ds) = (c + length ds) / T.
Proof.
  revert c. induction ds as [|d ds IH]; intros c Hc; simpl.
  - rewrite Nat.add_0_r. by rewrite Nat.div_small.
  - destruct (Nat.leb_spec T (S c)).
    + assert (S c = T) as HT by lia. simpl. rewrite IH by lia. simpl.
      replace (c + S (length ds)) with (length ds + 1 * T) by lia.
      rewrite Nat.div_add by lia. lia.
    + rewrite IH by lia. f_equal. lia.
Qed.

Lemma flushed_lookup T c ds i :
  c < T -> flushed T c ds !! i = ds !! (T * S i - S c).
Proof.
  revert c i. induction ds as [|d ds IH]; intros c i Hc; simpl; [done|].
  destruct (Nat.leb_spec T (S c)).
  - assert (S c = T) as HT by lia. destruct i as [|i].
    + replace (T * 1 - S c) with 0 by lia. done.
    + simpl. rewrite IH by lia.
      replace (T * S (S i) - S c) with (S (T * S i - 1)) by nia. done.
  - rewrite IH by lia.
    replace (T * S i - S c) with (S (T * S i - S (S c))) by nia. done.
Qed.

Section caching_more.
Context {St : Type} `{Storage St}.

Implicit Types (m : CachingMiddleware St) (w : world).

Lemma caching_writes_flushed (ds : list pyval) : forall m w,
  _cache_modified_count m < WRITE_CACHE_SIZE m ->
  iterM Caching.write ds m w =
    (let* s := iterM write
                 (flushed (WRITE_CACHE_SIZE m) (_cache_modified_count m) ds)
                 (storage m) in
     ret {| storage := s;
            cache := default (cache m) (last ds);
            _cache_modified_count :=
              (_cache_modified_count m + length ds) mod WRITE_CACHE_SIZE m;
            WRITE_CACHE_SIZE := WRITE_CACHE_SIZE m |}) w.
Proof.
  induction ds as [|d ds IH]; intros m w Hc.
  - simpl. unfold bind, ret. rewrite Nat.add_0_r, Nat.mod_small by done.
    by destruct m.
  - cbn [iterM flushed]. unfold bind at 1.
    destruct (Nat.leb_spec (WRITE_CACHE_SIZE m) (S (_cache_modified_count m)))
      as [Hreach|Hbelow].
    + assert (S (_cache_modified_count m) = WRITE_CACHE_SIZE m) as HT by lia.
      rewrite caching_write_reach by done. cbn [iterM]. unfold bind.
      destruct (write d (storage m) w) as [[s w1]|]; [|done].
      unfold ret at 1. rewrite IH by (simpl; lia). simpl.
      unfold bind. destruct (iterM write _ s w1) as [[s2 w2]|]; [|done].
      unfold ret. do 3 f_equal.
      * rewrite (last_cons d ds). by destruct (last ds).
      * replace (_cache_modified_count m + S (length ds))
          with (length ds + 1 * WRITE_CACHE_SIZE m) by lia.
        by rewrite Nat.Div0.mod_add.
    + rewrite caching_write_below by done. rewrite IH by (simpl; lia). simpl.
      unfold bind. destruct (iterM write _ _ w) as [[s2 w2]|]; [|done].
      unfold ret. do 3 f_equal.
      * rewrite (last_cons d ds). by destruct (last ds).
      * f_equal. lia.
Qed.

(** X16. What a run of writes through the middleware does to the wrapped
    storage: from a counter [c] below the threshold [T], writing the states
    [ds] hands the wrapped storage exactly every [T]-th of them, in order
    -- the states at positions [T - c], [2T - c], ... -- which makes
    [(c + n) / T] writes for [n] states; the counter ends at
    [(c + n) mod T] and the buffer holds the last state. *)
Theorem writes_reach_storage_every_T m (ds : list pyval) w :
  _cache_modified_count m < WRITE_CACHE_SIZE m ->
  let T := WRITE_CACHE_SIZE m in
  let c := _cache_modified_count m in
  iterM Caching.write ds m w =
    (let* s := iterM write (flushed T c ds) (storage m) in
     ret {| storage := s;
            cache := default (cache m) (last ds);
            _cache_modified_count := (c + length ds) mod T;
            WRITE_CACHE_SIZE := T |}) w /\
  length (flushed T c ds) = (c + length ds) / T /\
  (forall i, flushed T c ds !! i = ds !! (T * S i - S c)).
Proof.
  intros Hc T c. split; [by apply caching_writes_flushed|].
  split; [by apply flushed_length|]. intros i. by apply flushed_lookup.
Qed.

Lemma run_op_bounded o m w m' w' :
  _cache_modified_count m < WRITE_CACHE_SIZE m ->
  run_op o m w = Ok (m', w') ->
  _cache_modified_count m' < WRITE_CACHE_SIZE m' /\
  WRITE_CACHE_SIZE m' = WRITE_CACHE_SIZE m.
Proof.
  intros Hc. destruct o as [|data|]; simpl.
  - unfold bind, Caching.read.
    destruct (cache m); try (by intros [= <- <-]).
    unfold Middleware.read, bind.
    destruct (read (storage m) w) as [[r w1]|]; [|done].
    by intros [= <- <-].
  - destruct (Nat.leb_spec (WRITE_CACHE_SIZE m) (S (_cache_modified_count m))).
    + rewrite caching_write_reach by done. unfold bind.
      destruct (write data (storage m) w) as [[s w1]|]; [|done].
      intros [= <- <-]. simpl. split; [lia|done].
    + rewrite caching_write_below by done. intros [= <- <-]. simpl.
      split; [lia|done].
  - destruct (Nat.eq_dec (_cache_modified_count m) 0) as [Hz|Hnz].
    + rewrite caching_flush_clean by done. by intros [= <- <-].
    + rewrite caching_flush_pending by lia. unfold bind.
      destruct (write (cache m) (storage m) w) as [[s w1]|]; [|done].
      intros [= <- <-]. simpl. split; [lia|done].
Qed.

(** X17. The counter of pending writes stays below the threshold: no
    sequence of [read], [write] and [flush] calls leaves the threshold or
    more writes unflushed, and none changes the threshold. *)
Theorem pending_writes_bounded m (ops : list cache_op) w m' w' :
  _cache_modified_count m < WRITE_CACHE_SIZE m ->
  iterM run_op ops m w = Ok (m', w') ->
  _cache_modified_count m' < WRITE_CACHE_SIZE m' /\
  WRITE_CACHE_SIZE m' = WRITE_CACHE_SIZE m.
Proof.
  revert m w. induction ops as [|o ops IH]; intros m w Hc.
  - by intros [= <- <-].
  - simpl. unfold bind at 1.
    destruct (run_op o m w) as [[m1 w1]|] eqn:Hrun; [|done].
    destruct (run_op_bounded _ _ _ _ _ Hc Hrun) as [Hc1 HT1].
    intros Hrest. destruct (IH _ _ Hc1 Hrest) as [Hc' HT'].
    split; [done|congruence].
Qed.

(** X18. Flushing is idempotent: a second [flush()] does nothing, and a
    [flush()] before [close()] adds nothing to what [close()] does. *)
Theorem flush_is_idempotent m w :
  (let* m := Caching.flush m in Caching.flush m) w = Caching.flush m w /\
  (let* m := Caching.flush m in Caching.close m) w = Caching.close m w.
Proof.
  assert ((let* m := Caching.flush m in Caching.flush m) w
            = Caching.flush m w) as Htwice.
  { unfold bind. destruct (Nat.eq_dec (_cache_modified_count m) 0) as [Hz|Hnz].
    - rewrite caching_flush_clean by done. by apply caching_flush_clean.
    - rewrite caching_flush_pending by lia. unfold bind.
      destruct (write (cache m) (storage m) w) as [[s w1]|]; [|done].
      unfold ret. by rewrite caching_flush_clean. }
  split; [done|].
  unfold Caching.close. unfold bind in *.
  destruct (Caching.flush m w) as [[m1 w1]|]; [|done].
  by rewrite Htwice.
Qed.

End caching_more.

(** X19. Over a memory storage, a buffer with nothing pending is the very
    object the storage holds: whenever the counter is 0 and the buffer is
    populated, buffer and [memory] are the same, after any sequence of
    [read], [write] and [flush] calls -- none of which fails. *)
Theorem clean_buffer_is_stored
  (m : CachingMiddleware ExtendedMemoryStorage) (ops : list cache_op)
  (w : world) :
  (_cache_modified_count m = 0 -> populated m ->
   memory (storage m) = cache m) ->
  exists m',
    iterM run_op ops m w = Ok (m', w) /\
    (_cache_modified_count m' = 0 -> populated m' ->
     memory (storage m') = cache m').
Proof.
  revert m. induction ops as [|o ops IH]; intros m Hinv.
  - by exists m.
  - cbn [iterM]. unfold bind.
    assert (exists m1,
              run_op o m w = Ok (m1, w) /\
              (_cache_modified_count m1 = 0 -> populated m1 ->
               memory (storage m1) = cache m1)) as (m1 & -> & Hinv1).
    { destruct o as [|data|]; simpl.
      - unfold bind, Caching.read. unfold populated in *.
        destruct (cache m) eqn:Hc; eexists; (split; [reflexivity|]);
          simpl; try (rewrite Hc; exact Hinv); done.
      - unfold Caching.write, Caching.flush. simpl.
        destruct (WRITE_CACHE_SIZE m <=? S (_cache_modified_count m))%nat;
          eexists; (split; [reflexivity|]); simpl; done.
      - unfold Caching.flush.
        destruct (0 <? _cache_modified_count m)%nat;
          eexists; (split; [reflexivity|]); simpl; done. }
    by apply IH.
Qed.

(** ** The logging middleware *)

Lemma string_app_assoc (a b c : string) : (a +:+ b) +:+ c = a +:+ (b +:+ c).
Proof.
  induction a as [|x a IH]; [done|].
  change (String x ((a +:+ b) +:+ c) = String x (a +:+ (b +:+ c))).
  by f_equal.
Qed.

Lemma string_app_nil_r (a : string) : a +:+ EmptyString = a.
Proof.
  induction a as [|x a IH]; [done|].
  change (String x (a +:+ EmptyString) = String x a). by f_equal.
Qed.

(** The memory storage neither reads nor writes files. *)
Lemma memory_ignores_files : ignores_files ExtendedMemoryStorage.
Proof. by intros [|data|] s w f. Qed.

Section logging.
Context {St : Type} `{Storage St}.

Implicit Types (self : Logging.LoggingMiddleware St) (w : world).

(** A logged call: the line goes to the log, then the call goes to the
    wrapped storage. *)
Lemma logged_call_spec c self w :
  logged_call c self w =
    (let* s := plain_call c.2 (Logging.storage self) in
     ret {| Logging.storage := s; Logging.log_file := Logging.log_file self |})
      (set_files
         (<[Logging.log_file self :=
              default EmptyString (files w !! Logging.log_file self)
              +:+ log_line c]> (files w)) w).
Proof.
  destruct c as [now [|data|]]; unfold logged_call, log_line; simpl.
  - unfold Logging.read, Logging._log_operation, bind, append_text. simpl.
    destruct (read _ _) as [[r w1]|]; [|done]. unfold ret. by destruct self.
  - unfold Logging.write, Logging._log_operation, bind, append_text. done.
  - unfold Logging.close, Logging._log_operation, bind, append_text. done.
Qed.

Lemma plain_calls_frame (cs : list storage_call) : forall (s : St) w f,
  ignores_files St ->
  iterM plain_call cs s (set_files f w) = lift_files f (iterM plain_call cs s w).
Proof.
  induction cs as [|c cs IH]; intros s w f Hframe; [done|].
  cbn [iterM]. unfold bind. rewrite Hframe.
  destruct (plain_call c s w) as [[s1 w1]|]; [|done]. simpl. by apply IH.
Qed.

(** X20. The logging middleware is transparent and keeps a complete log:
    over a storage that does not use files, a sequence of [read], [write]
    and [close] calls through the middleware does to the wrapped storage
    what the same calls do directly, fails where they fail, and appends to
    the log file one line per call, in order, after what the file held. *)
Theorem logging_is_transparent (c : string * storage_call)
  (cs : list (string * storage_call)) self w :
  ignores_files St ->
  iterM logged_call (c :: cs) self w =
    match iterM plain_call (c :: cs).*2 (Logging.storage self) w with
    | Ok (s, w') =>
        Ok ({| Logging.storage := s;
               Logging.log_file := Logging.log_file self |},
            set_files
              (<[Logging.log_file self :=
                   default EmptyString (files w !! Logging.log_file self)
                   +:+ log_lines (c :: cs)]> (files w)) w')
    | Raise e => Raise e
    end.
Proof.
  intros Hframe. revert c self w.
  induction cs as [|c' cs IH]; intros c self w.
  - cbn [iterM fmap list_fmap log_lines foldr]. unfold bind.
    rewrite logged_call_spec. unfold bind. rewrite Hframe.
    destruct (plain_call c.2 (Logging.storage self) w) as [[s1 w1]|]; [|done].
    simpl. unfold ret. by rewrite string_app_nil_r.
  - change (iterM logged_call (c :: c' :: cs) self w)
      with ((let* self1 := logged_call c self in
             iterM logged_call (c' :: cs) self1) w).
    change (iterM plain_call (c :: c' :: cs).*2 (Logging.storage self) w)
      with ((let* s1 := plain_call c.2 (Logging.storage self) in
             iterM plain_call (c' :: cs).*2 s1) w).
    unfold bind at 1 2. rewrite logged_call_spec. unfold bind at 1.
    rewrite Hframe.
    destruct (plain_call c.2 (Logging.storage self) w) as [[s1 w1]|]; [|done].
    simpl lift_files. unfold ret at 1. rewrite IH. simpl Logging.storage.
    rewrite (plain_calls_frame _ _ _ _ Hframe).
    destruct (iterM plain_call (c' :: cs).*2 s1 w1) as [[s2 w2]|]; [|done].
    simpl. rewrite lookup_insert_eq. simpl.
    by rewrite insert_insert_eq, string_app_assoc.
Qed.

(** X21. A logging middleware made without a log file name, or with the
    empty name, logs to ['tinydb.log']. *)
Theorem logging_default_file (storage_cls : M St) (file : option string)
  (s : St) w w' :
  storage_cls w = Ok (s, w') ->
  file = None \/ file = Some EmptyString ->
  Logging.init storage_cls file w =
    Ok ({| Logging.storage := s; Logging.log_file := "tinydb.log" |}, w').
Proof.
  intros Hcls Hfile. unfold Logging.init, bind. rewrite Hcls.
  by destruct Hfile as [-> | ->].
Qed.

End logging.

(** ** Runs of the further properties *)

Section further_runs.
#[local] Existing Instance MiniJson.codec.



(** A transaction on a memory storage that holds nothing, rolled back. *)
Lemma rollback_to_absent_state_witness :
  observe (let* s := begin_transaction
                       {| memory := PNone; _transaction_backup := PNone |} in
           let* s := iterM write [PRef 1; PRef 2] s in
           rollback_transaction s)
    {| heap := heap ex_world; files := {[ "empty.json" := EmptyString ]} |}
  = Ok (VDict []).
Proof.
  refine (proj1 (proj2 (rollback_to_absent_state
                          {| memory := PNone; _transaction_backup := PNone |}
                          {| _handle_name := "empty.json";
                             _transaction_backup_path := "empty.json.bak" |}
                          {| heap := heap ex_world;
                             files := {[ "empty.json" := EmptyString ]} |}
                          [PRef 1; PRef 2] _ _ _ _))).
  - reflexivity.
  - vm_compute. reflexivity.
  - discriminate.
  - repeat constructor; vm_compute; eexists; reflexivity.
Defined.

(** Restoring from a path that does not exist. *)
Lemma backup_restore_path_errors_witness :
  restore "none.json" ex_mem ex_world = Ok (ex_mem, ex_world) /\
  restore "none.json" ex_file ex_world = Raise FileNotFoundError /\
  backup "db.json" ex_file ex_world = Raise SameFileError /\
  restore "db.json" ex_file ex_world = Raise SameFileError.
Proof.
  apply (backup_restore_path_errors ex_mem ex_file ex_world "none.json").
  - vm_compute. reflexivity.
  - discriminate.
Defined.

(** A backup of [{}] taken inside a transaction on the memory backend. *)
Lemma backup_inside_transaction_witness :
  exists m' w',
    (let* s := begin_transaction ex_mem in
     let* s := write (PRef 2) s in
     let* s := backup "backup.json" s in
     rollback_transaction s) ex_world = Ok (m', w') /\
    read_value m' w' = Ok ex_world_state /\
    files w' !! "backup.json" = Some (dumps (VDict [])).
Proof.
  refine (proj1 (backup_inside_transaction ex_mem ex_file ex_world 1
                   [("t", PRef 0); ("u", PInt 5)] ex_world_state
                   (PRef 2) (VDict []) "backup.json" "[0]"
                   _ _ _ _ _ _ _ _ _)).
  - reflexivity.
  - reflexivity.
  - reflexivity.
  - discriminate.
  - reflexivity.
  - vm_compute. reflexivity.
  - discriminate.
  - discriminate.
  - discriminate.
Defined.

(** A backup of the memory storage restored into the file storage. *)
Lemma backup_crosses_backends_witness :
  exists w',
    (let* _ := backup "backup.json" ex_mem in restore "backup.json" ex_file)
      ex_world = Ok (ex_file, w') /\
    read_value ex_file w' = Ok ex_world_state.
Proof.
  refine (proj1 (backup_crosses_backends ex_mem ex_file ex_world
                   "backup.json" ex_world_state "[0]" (VList [VInt 0])
                   _ _ _ _ _ _ _)).
  - discriminate.
  - reflexivity.
  - vm_compute. reflexivity.
  - discriminate.
  - vm_compute. reflexivity.
  - vm_compute. reflexivity.
  - discriminate.
Defined.

(** The schema and the documents of the unit test: [{'name': 'Bob'}] lacks
    ['age']. *)
Lemma validate_document_checks_presence_witness :
  let w := {| heap := [ODict [("name", PStr "str"); ("age", PStr "int")];
                       ODict [("name", PStr "Bob")]];
              files := ∅ |} in
  outcome (Facade.validate_document "test" (PRef 1)
             (Facade.set_schema "test" (PRef 0)
                {| _storage := tt; _opened := true; _schemas := ∅ |}) w)
    = Ok false.
Proof.
  intros w.
  pose proof (proj1 (validate_document_checks_presence tt [] [] "test" 0 1
                       [("name", PStr "str"); ("age", PStr "int")]
                       [("name", PStr "Bob")] w
                       (List.Forall_nil _) eq_refl eq_refl)) as Hv.
  simpl in Hv. unfold outcome. by rewrite Hv.
Defined.

(** The table names of the example state. *)
Lemma tables_are_the_keys_witness :
  outcome (TinyDBMethods.tables
             {| _storage := ex_mem; _opened := true; _schemas := ∅ |}
             ex_world) = Ok {[ "t"; "u" ]}.
Proof.
  apply (tables_are_the_keys
           {| _storage := ex_mem; _opened := true; _schemas := ∅ |}
           ex_world ex_world_state).
  - reflexivity.
  - vm_compute. reflexivity.
Defined.

(** [drop_tables()] on a database over the example memory storage. *)
Lemma drop_tables_leaves_nothing_witness :
  let D' := {| facade := {| _storage := {| memory := PRef 3;
                                           _transaction_backup := PNone |};
                            _opened := true; _schemas := ∅ |};
               _tables := (∅ : gmap string unit) |} in
  let w' := set_heap (heap ex_world ++ [ODict []]) ex_world in
  _tables D' = ∅ /\
  read_value (_storage (facade D')) w' = Ok (VDict []) /\
  outcome (TinyDBMethods.tables (facade D') w') = Ok ∅.
Proof.
  intros D' w'.
  apply (drop_tables_leaves_nothing
           {| facade := {| _storage := ex_mem; _opened := true;
                            _schemas := ∅ |};
              _tables := {[ "t" := tt ]} |} ex_world D' w').
  - exact memory_read_after_write.
  - reflexivity.
Defined.

(** [drop_table('u')] on the example state. *)
Lemma drop_table_removes_witness :
  let D' := {| facade := {| _storage := ex_mem; _opened := true;
                            _schemas := ∅ |};
               _tables := delete "u" ({[ "u" := tt ]} : gmap string unit) |} in
  let w' := set_heap (<[1 := ODict [("t", PRef 0)]]> (heap ex_world))
              ex_world in
  read_value (_storage (facade D')) w' = Ok (VDict [("t", VDict [("n", VInt 1)])]).
Proof.
  intros D' w'.
  refine (proj1 (proj2 (drop_table_removes
                          {| facade := {| _storage := ex_mem; _opened := true;
                                           _schemas := ∅ |};
                             _tables := {[ "u" := tt ]} |}
                          "u" ex_world (PRef 1) ex_world
                          [("t", VDict [("n", VInt 1)]); ("u", VInt 5)]
                          D' w' _ _ _ _ _))).
  - exact memory_read_after_write.
  - reflexivity.
  - reflexivity.
  - apply list_elem_of_In. simpl. auto.
  - reflexivity.
Defined.

(** [drop_table('x')] on the example state, which has no table ['x']. *)
Lemma drop_table_missing_witness :
  let D := {| facade := {| _storage := ex_mem; _opened := true;
                           _schemas := ∅ |};
              _tables := ({[ "x" := tt ]} : gmap string unit) |} in
  TinyDBMethods.drop_table "x" D ex_world =
    Ok ({| facade := facade D; _tables := delete "x" (_tables D) |},
        ex_world).
Proof.
  intros D.
  apply (drop_table_missing D "x" ex_world (PRef 1) ex_world ex_world_state
           (list_to_set ["t"; "u"])).
  - reflexivity.
  - reflexivity.
  - reflexivity.
  - intros Hin. apply elem_of_list_to_set in Hin.
    apply list_elem_of_In in Hin. simpl in Hin.
    destruct Hin as [Hin|[Hin|[]]]; discriminate.
Defined.

(** [drop_table('t')] inside a transaction that is rolled back. *)
Lemma rollback_undoes_drop_table_witness :
  observe (let* f := Facade.begin_transaction
                       {| _storage := ex_mem; _opened := true;
                          _schemas := ∅ |} in
           let* D1 := TinyDBMethods.drop_table "t"
                        {| facade := f;
                           _tables := ({[ "t" := tt ]} : gmap string unit) |} in
           let* f := Facade.rollback_transaction (facade D1) in
           ret (_storage f)) ex_world = Ok ex_world_state.
Proof.
  apply (rollback_undoes_drop_table
           {| facade := {| _storage := ex_mem; _opened := true;
                            _schemas := ∅ |};
              _tables := ({[ "t" := tt ]} : gmap string unit) |}
           "t" ex_world 1 [("t", PRef 0); ("u", PInt 5)]).
  - reflexivity.
  - reflexivity.
  - reflexivity.
Defined.

(** Three writes from counter 1 with threshold 2: the first and the third
    reach the recording storage. *)
Lemma writes_reach_storage_every_T_witness :
  iterM Caching.write [PRef 0; PRef 1; PRef 2]
    {| storage := @nil call_event; cache := PNone;
       _cache_modified_count := 1; WRITE_CACHE_SIZE := 2 |} ex_world =
  Ok ({| storage := [WriteCall (PRef 0); WriteCall (PRef 2)];
         cache := PRef 2; _cache_modified_count := 0;
         WRITE_CACHE_SIZE := 2 |}, ex_world).
Proof.
  refine (eq_trans
            (proj1 (writes_reach_storage_every_T
                      {| storage := @nil call_event; cache := PNone;
                         _cache_modified_count := 1;
                         WRITE_CACHE_SIZE := 2 |}
                      [PRef 0; PRef 1; PRef 2] ex_world _)) _).
  - simpl. lia.
  - reflexivity.
Defined.

(** The counter after a run with threshold 3. *)
Lemma pending_writes_bounded_witness :
  let m' := {| storage := [WriteCall (PRef 0)]; cache := PRef 0;
               _cache_modified_count := 1; WRITE_CACHE_SIZE := 3 |} in
  _cache_modified_count m' < WRITE_CACHE_SIZE m' /\ WRITE_CACHE_SIZE m' = 3.
Proof.
  intros m'.
  apply (pending_writes_bounded
           {| storage := @nil call_event; cache := PRef 0;
              _cache_modified_count := 1; WRITE_CACHE_SIZE := 3 |}
           [OpWrite (PRef 1); OpRead; OpWrite (PRef 0); OpWrite (PRef 0)]
           ex_world m' ex_world).
  - simpl. lia.
  - reflexivity.
Defined.

(** A new middleware over the example memory storage. *)
Lemma clean_buffer_is_stored_witness :
  exists m',
    iterM run_op [OpRead; OpWrite (PRef 2); OpFlush; OpRead]
      {| storage := ex_mem; cache := PNone; _cache_modified_count := 0;
         WRITE_CACHE_SIZE := 1000 |} ex_world = Ok (m', ex_world) /\
    (_cache_modified_count m' = 0 -> populated m' ->
     memory (storage m') = cache m').
Proof.
  apply (clean_buffer_is_stored
           {| storage := ex_mem; cache := PNone; _cache_modified_count := 0;
              WRITE_CACHE_SIZE := 1000 |}).
  intros _ Hp. by contradiction Hp.
Defined.

(** A write and a read through the logging middleware over the example
    memory storage. *)
Lemma logging_is_transparent_witness :
  iterM logged_call [("12:00", CallWrite (PRef 2)); ("12:01", CallRead)]
    {| Logging.storage := ex_mem; Logging.log_file := "tinydb.log" |}
    ex_world =
  Ok ({| Logging.storage := {| memory := PRef 2;
                               _transaction_backup := PNone |};
         Logging.log_file := "tinydb.log" |},
      set_files
        (<["tinydb.log" :=
             log_lines [("12:00", CallWrite (PRef 2)); ("12:01", CallRead)]]>
           (files ex_world)) ex_world).
Proof.
  refine (eq_trans
            (logging_is_transparent ("12:00", CallWrite (PRef 2))
               [("12:01", CallRead)]
               {| Logging.storage := ex_mem;
                  Logging.log_file := "tinydb.log" |} ex_world _) _).
  - exact memory_ignores_files.
  - reflexivity.
Defined.

(** A logging middleware made with the empty file name. *)
Lemma logging_default_file_witness :
  Logging.init ExtendedMemoryStorage_init (Some EmptyString) ex_world =
  Ok ({| Logging.storage := {| memory := PNone;
                               _transaction_backup := PNone |};
         Logging.log_file := "tinydb.log" |}, ex_world).
Proof.
  apply (logging_default_file ExtendedMemoryStorage_init (Some EmptyString)).
  - reflexivity.
  - right. reflexivity.
Defined.

End further_runs.
